(** * Clearing and settlement engine of the virtual energy trading app

    A shallow embedding of [src/utils/clearing.ts], [src/utils/time.ts] and
    of the bid actions of the zustand store, with the properties the
    specification states about them.

    JavaScript numbers are IEEE 754 binary64 values; they are modelled by
    Rocq's primitive floats, whose operations are the same round-to-nearest
    binary64 operations.  JavaScript [Map] and [Set] iterate in insertion
    order; they are modelled by association lists and duplicate-free lists
    that keep that order. *)

From Stdlib Require Import ZArith List String Ascii Bool Floats Lia.
From Stdlib Require Import Permutation Sorted OrderedTypeEx.
Import ListNotations.

Local Open Scope string_scope.
Local Open Scope list_scope.

(* ================================================================= *)
(** ** JavaScript values used by the code *)

Module JS.

(** [number]: a binary64 float. *)
Definition number := float.

(** [x >= y], [x <= y], [x > y], [x < y] on numbers (false on NaN). *)
Definition ge (x y : number) : bool := PrimFloat.leb y x.
Definition le (x y : number) : bool := PrimFloat.leb x y.
Definition gt (x y : number) : bool := PrimFloat.ltb y x.
Definition lt (x y : number) : bool := PrimFloat.ltb x y.

(** [x === y] and [x !== y] on numbers: IEEE equality, so [NaN !== NaN]
    and [-0 === 0]. *)
Definition strict_eq (x y : number) : bool := PrimFloat.eqb x y.
Definition strict_ne (x y : number) : bool := negb (PrimFloat.eqb x y).

(** An array length used as a number.  Lengths are below 2^32, where the
    conversion is exact. *)
Definition of_length (n : nat) : number :=
  PrimFloat.of_uint63 (Uint63.of_Z (Z.of_nat n)).

(** *** [Map<string, V>] with insertion order *)
Section MapOps.
Context {V : Type}.

Definition Map := list (string * V).

Fixpoint map_get (k : string) (m : Map) : option V :=
    match m with
    | [] => None
    | (k', v) :: m' => if String.eqb k' k then Some v else map_get k m'
    end.

Definition map_has (k : string) (m : Map) : bool :=
    match map_get k m with Some _ => true | None => false end.

(** [m.set(k, v)]: an existing key keeps its place, a new key goes last. *)
Fixpoint map_set (k : string) (v : V) (m : Map) : Map :=
    match m with
    | [] => [(k, v)]
    | (k', v') :: m' =>
        if String.eqb k' k then (k', v) :: m' else (k', v') :: map_set k v m'
    end.

Definition map_keys (m : Map) : list string := List.map fst m.
End MapOps.
Arguments Map V : clear implicits.

(** *** [Set<string>] with insertion order *)
Definition StrSet := list string.

Definition set_has (k : string) (s : StrSet) : bool :=
  existsb (String.eqb k) s.

Definition set_add (k : string) (s : StrSet) : StrSet :=
  if set_has k s then s else s ++ [k].

(** *** [Array.prototype.sort(compareFn)]
    A stable sort: an element is placed before the first element of the
    already sorted tail that does not compare below it. *)
Section Sort.
Context {A : Type} (compareFn : A -> A -> Z).

Fixpoint sort_insert (x : A) (l : list A) : list A :=
    match l with
    | [] => [x]
    | y :: l' =>
        if (compareFn x y <=? 0)%Z then x :: l else y :: sort_insert x l'
    end.

Fixpoint array_sort (l : list A) : list A :=
    match l with
    | [] => []
    | x :: l' => sort_insert x (array_sort l')
    end.
End Sort.

End JS.

(* ================================================================= *)
(** ** Data model ([types/index.ts]) *)

Inductive BidSide := BUY | SELL.

Module Bid.
Record t := mk {
    id : string;
    hourStart : string;
    side : BidSide;
    price : JS.number;
    qtyMWh : JS.number
  }.
End Bid.

Module MarketPrice.
Record t := mk {
    datetime_beginning_ept : string;
    datetime_beginning_utc : string;
    settlement_point : string;
    settlement_point_price : JS.number
  }.
End MarketPrice.

(** The [{ price, settlement_point }] objects collected per hour. *)
Module RtPoint.
Record t := mk {
    price : JS.number;
    settlement_point : string
  }.
End RtPoint.

Module HourlyAverage.
Record t := mk {
    hourStart : string;
    avgPrice : JS.number;
    settlement_point : string
  }.
End HourlyAverage.

Module HourlyClear.
Record t := mk {
    hourStart : string;
    daPrice : option JS.number;
    avgRtPrice : option JS.number;
    clearedQty : JS.number;
    pnl : JS.number
  }.
End HourlyClear.

Module ClearingSummary.
Record t := mk {
    totalPnL : JS.number;
    totalClearedQty : JS.number;
    longQty : JS.number;
    shortQty : JS.number;
    hoursWithPositions : nat;
    hoursWithPnL : nat;
    avgPnLPerHour : JS.number
  }.
End ClearingSummary.

(* ================================================================= *)
(** ** [utils/time.ts]: hourly averaging, and [utils/clearing.ts] *)

(** [bidsByHour] / [hourlyGroups]: create the group on first sight of the
    key, then push onto the array stored under it. *)
Definition group_push {V : Type} (k : string) (v : V)
    (groups : JS.Map (list V)) : JS.Map (list V) :=
  let groups1 :=
    if JS.map_has k groups then groups else JS.map_set k [] groups in
  match JS.map_get k groups1 with
  | Some arr => JS.map_set k (arr ++ [v]) groups1
  | None => groups1 (* not reached: the key was just created *)
  end.

(** The array stored under a key, [[]] when there is none ([get(k) ?? []]). *)
Definition get_or_nil {V : Type} (h : string) (groups : JS.Map (list V))
  : list V :=
  match JS.map_get h groups with Some arr => arr | None => [] end.

(** The grouping loop shared by [bidsByHour] and [hourlyGroups], started
    from any map. *)
Definition grouped {A V : Type} (key : A -> string) (val : A -> V)
    (xs : list A) (g0 : JS.Map (list V)) : JS.Map (list V) :=
  fold_left (fun g x => group_push (key x) (val x) g) xs g0.

(** [shouldBidClear] *)
Definition shouldBidClear (bid : Bid.t) (daPrice : JS.number) : bool :=
  match Bid.side bid with
  | BUY => JS.ge (Bid.price bid) daPrice
  | SELL => JS.le (Bid.price bid) daPrice
  end.

(** [bid.side === "BUY" ? bid.qtyMWh : -bid.qtyMWh] *)
Definition qtyContribution (bid : Bid.t) : JS.number :=
  match Bid.side bid with
  | BUY => Bid.qtyMWh bid
  | SELL => PrimFloat.opp (Bid.qtyMWh bid)
  end.

Section Engine.

(** Luxon's [DateTime.fromISO(s).setZone(MARKET_TIMEZONE).startOf("hour").toISO()]:
    the key of the clock hour that contains the timestamp [s]. *)
Variable hourKey : string -> string.

(** [a.localeCompare(b)]: negative, zero or positive. *)
Variable localeCompare : string -> string -> Z.

Definition groupRt (rtData : list MarketPrice.t) : JS.Map (list RtPoint.t) :=
  fold_left
    (fun hourlyGroups point =>
       let hourStart := hourKey (MarketPrice.datetime_beginning_ept point) in
       group_push hourStart
         (RtPoint.mk (MarketPrice.settlement_point_price point)
                     (MarketPrice.settlement_point point))
         hourlyGroups)
    rtData [].

Definition sumPrices (points : list RtPoint.t) : JS.number :=
  fold_left (fun sum p => PrimFloat.add sum (RtPoint.price p)) points 0%float.

(** One iteration of [hourlyGroups.forEach]: the records it pushes. *)
Definition averageGroup (entry : string * list RtPoint.t)
  : list HourlyAverage.t :=
  let '(hourStart, points) := entry in
  match points with
  | [] => []
  | p0 :: _ =>
      [HourlyAverage.mk hourStart
         (PrimFloat.div (sumPrices points) (JS.of_length (List.length points)))
         (RtPoint.settlement_point p0)]
  end.

Definition averageRTToHourly (rtData : list MarketPrice.t)
  : list HourlyAverage.t :=
  let hourlyGroups := groupRt rtData in
  let hourlyAverages := flat_map averageGroup hourlyGroups in
  JS.array_sort
    (fun a b => localeCompare (HourlyAverage.hourStart a)
                              (HourlyAverage.hourStart b))
    hourlyAverages.

Definition groupBids (bids : list Bid.t) : JS.Map (list Bid.t) :=
  fold_left (fun bidsByHour bid => group_push (Bid.hourStart bid) bid bidsByHour)
            bids [].

Definition daPriceMap (daHourlyPrices : list MarketPrice.t) : JS.Map JS.number :=
  fold_left
    (fun m price =>
       JS.map_set (MarketPrice.datetime_beginning_ept price)
                  (MarketPrice.settlement_point_price price) m)
    daHourlyPrices [].

Definition rtPriceMap (rtHourlyAverages : list HourlyAverage.t)
  : JS.Map JS.number :=
  fold_left
    (fun m avg =>
       JS.map_set (HourlyAverage.hourStart avg) (HourlyAverage.avgPrice avg) m)
    rtHourlyAverages [].

Definition collectHours (bidsByHour : JS.Map (list Bid.t))
    (daHourlyPrices : list MarketPrice.t) : JS.StrSet :=
  let allHours :=
    fold_left (fun s hour => JS.set_add hour s) (JS.map_keys bidsByHour) [] in
  fold_left
    (fun s price => JS.set_add (MarketPrice.datetime_beginning_ept price) s)
    daHourlyPrices allHours.

(** The signed quantity accumulated by [hourBids.forEach]. *)
Definition accumulateCleared (hourBids : list Bid.t) (daPrice : JS.number)
  : JS.number :=
  fold_left
    (fun clearedQty bid =>
       if shouldBidClear bid daPrice
       then PrimFloat.add clearedQty (qtyContribution bid)
       else clearedQty)
    hourBids 0%float.

(** The body of [allHours.forEach]. *)
Definition clearHour (bidsByHour : JS.Map (list Bid.t))
    (daPricesByHour rtPricesByHour : JS.Map JS.number)
    (hourStart : string) : HourlyClear.t :=
  let hourBids :=
    match JS.map_get hourStart bidsByHour with Some bs => bs | None => [] end in
  let daPrice := JS.map_get hourStart daPricesByHour in
  let avgRtPrice := JS.map_get hourStart rtPricesByHour in
  let clearedQty :=
    match daPrice with
    | Some da => accumulateCleared hourBids da
    | None => 0%float
    end in
  let pnl :=
    match daPrice, avgRtPrice with
    | Some da, Some rt =>
        if JS.strict_ne clearedQty 0%float
        then PrimFloat.mul clearedQty (PrimFloat.sub rt da)
        else 0%float
    | _, _ => 0%float
    end in
  HourlyClear.mk hourStart daPrice avgRtPrice clearedQty pnl.

Definition clearBids (bids : list Bid.t)
    (daHourlyPrices rtFiveMinPrices : list MarketPrice.t)
  : list HourlyClear.t :=
  let bidsByHour := groupBids bids in
  let daPricesByHour := daPriceMap daHourlyPrices in
  let rtHourlyAverages := averageRTToHourly rtFiveMinPrices in
  let rtPricesByHour := rtPriceMap rtHourlyAverages in
  let allHours := collectHours bidsByHour daHourlyPrices in
  let hourlyClears :=
    List.map (clearHour bidsByHour daPricesByHour rtPricesByHour) allHours in
  JS.array_sort
    (fun a b => localeCompare (HourlyClear.hourStart a)
                              (HourlyClear.hourStart b))
    hourlyClears.

End Engine.

(** [calculateTotalPnL] *)
Definition calculateTotalPnL (hourlyClears : list HourlyClear.t) : JS.number :=
  fold_left (fun total clear => PrimFloat.add total (HourlyClear.pnl clear))
            hourlyClears 0%float.

(** [calculateTotalClearedQty] *)
Definition calculateTotalClearedQty (hourlyClears : list HourlyClear.t)
  : JS.number :=
  fold_left
    (fun total clear =>
       PrimFloat.add total (PrimFloat.abs (HourlyClear.clearedQty clear)))
    hourlyClears 0%float.

(** [getClearingSummary] *)
Definition getClearingSummary (hourlyClears : list HourlyClear.t)
  : ClearingSummary.t :=
  let totalPnL := calculateTotalPnL hourlyClears in
  let totalClearedQty := calculateTotalClearedQty hourlyClears in
  let hoursWithPositions :=
    List.length (filter (fun c => JS.strict_ne (HourlyClear.clearedQty c) 0%float)
                   hourlyClears) in
  let hoursWithPnL :=
    List.length (filter (fun c => JS.strict_ne (HourlyClear.pnl c) 0%float)
                   hourlyClears) in
  let longQty :=
    fold_left (fun sum c => PrimFloat.add sum (HourlyClear.clearedQty c))
      (filter (fun c => JS.gt (HourlyClear.clearedQty c) 0%float) hourlyClears)
      0%float in
  let shortQty :=
    fold_left
      (fun sum c => PrimFloat.add sum (PrimFloat.abs (HourlyClear.clearedQty c)))
      (filter (fun c => JS.lt (HourlyClear.clearedQty c) 0%float) hourlyClears)
      0%float in
  ClearingSummary.mk totalPnL totalClearedQty longQty shortQty
    hoursWithPositions hoursWithPnL
    (if Nat.ltb 0 hoursWithPnL
     then PrimFloat.div totalPnL (JS.of_length hoursWithPnL)
     else 0%float).

(* ================================================================= *)
(** ** [utils/time.ts]: the order-entry cutoff *)

(** The part of Luxon the cutoff uses.  A [DateTime] is an instant (epoch
    milliseconds) together with the zone it is displayed in; a zone is
    represented by its UTC offset in minutes, taken constant over the days
    at hand (no daylight-saving change in between). *)
Module Luxon.

Record CalendarDate := mkDate { year : Z; month : Z; day : Z }.

Record DateTime := mkDateTime { ts : Z; offset : Z }.

Local Open Scope Z_scope.

Definition MS_PER_MINUTE : Z := 60000.
Definition MS_PER_HOUR : Z := 3600000.
Definition MS_PER_DAY : Z := 86400000.

(** Days from 1970-01-01 to a proleptic Gregorian date. *)
Definition days_from_civil (d : CalendarDate) : Z :=
  let y := if month d <=? 2 then year d - 1 else year d in
  let era := y / 400 in
  let yoe := y - era * 400 in
  let mp := if month d <=? 2 then month d + 9 else month d - 3 in
  let doy := (153 * mp + 2) / 5 + day d - 1 in
  let doe := yoe * 365 + yoe / 4 - yoe / 100 + doy in
  era * 146097 + doe - 719468.

(** [DateTime.fromISO("YYYY-MM-DD")]: the text carries no offset, so it is
    read as midnight of that date in the default zone, which is the local
    zone of the runtime. *)
Definition fromISO (localZone : Z) (d : CalendarDate) : DateTime :=
  mkDateTime (days_from_civil d * MS_PER_DAY - localZone * MS_PER_MINUTE)
             localZone.

(** [dt.setZone(z)]: same instant, shown in another zone. *)
Definition setZone (zone : Z) (dt : DateTime) : DateTime :=
  mkDateTime (ts dt) zone.

(** Wall-clock reading of [dt] in its zone, as milliseconds. *)
Definition localMillis (dt : DateTime) : Z :=
  ts dt + offset dt * MS_PER_MINUTE.

Definition localDay (dt : DateTime) : Z := localMillis dt / MS_PER_DAY.
Definition hour (dt : DateTime) : Z :=
  (localMillis dt mod MS_PER_DAY) / MS_PER_HOUR.
Definition minute (dt : DateTime) : Z :=
  (localMillis dt mod MS_PER_HOUR) / MS_PER_MINUTE.

(** [dt.set({ hour, minute, second, millisecond })]: keeps the local
    calendar day of [dt] and replaces the time of day. *)
Definition set_time (h mi s ms : Z) (dt : DateTime) : DateTime :=
  mkDateTime
    (localDay dt * MS_PER_DAY + ((h * 60 + mi) * 60 + s) * 1000 + ms
     - offset dt * MS_PER_MINUTE)
    (offset dt).

(** [a > b] on DateTimes compares their instants. *)
Definition gt (a b : DateTime) : bool := ts b <? ts a.

Definition two_digits (n : Z) : string :=
  String (ascii_of_nat (48 + Z.to_nat (n / 10)))
    (String (ascii_of_nat (48 + Z.to_nat (n mod 10))) EmptyString).

(** [dt.toFormat("HH:mm")] *)
Definition toFormat_HHmm (dt : DateTime) : string :=
  two_digits (hour dt) ++ ":" ++ two_digits (minute dt).

End Luxon.

Module Cutoff.
Import Luxon.
Local Open Scope Z_scope.

Definition CUTOFF_HOUR : Z := 11.
Definition CUTOFF_MINUTE : Z := 0.

Record CutoffStatus := mkStatus {
    isCutoffPassed : bool;
    cutoffTime : DateTime;
    currentTime : DateTime;
    timeToString : string
  }.

Section Zones.
(** UTC offsets, in minutes, of the runtime's local zone and of
    [MARKET_TIMEZONE] (America/Chicago: -360, or -300 in summer). *)
Variables localZone marketZone : Z.

(** [getCurrentMarketTime], with the clock reading [now] made explicit. *)
Definition getCurrentMarketTime (now : Z) : DateTime :=
    setZone marketZone (mkDateTime now localZone).

(** [getCutoffTime] *)
Definition getCutoffTime (tradingDate : CalendarDate) : DateTime :=
    set_time CUTOFF_HOUR CUTOFF_MINUTE 0 0
      (setZone marketZone (fromISO localZone tradingDate)).

(** [getCutoffStatus] *)
Definition getCutoffStatus (now : Z) (tradingDate : CalendarDate)
    : CutoffStatus :=
    let currentTime := getCurrentMarketTime now in
    let cutoffTime := getCutoffTime tradingDate in
    let isCutoffPassed := gt currentTime cutoffTime in
    mkStatus isCutoffPassed cutoffTime currentTime
      (if isCutoffPassed
       then "Order entry closed"
       else "Order entry open until " ++ toFormat_HHmm cutoffTime ++ " CT")%string.

(** The cutoff instant the specification describes: 11:00:00.000
    market-local time on the trading date itself. *)
Definition spec_cutoffInstant (tradingDate : CalendarDate) : Z :=
    days_from_civil tradingDate * MS_PER_DAY + 11 * MS_PER_HOUR
    - marketZone * MS_PER_MINUTE.
End Zones.

(** New Year's Day 2024 as trading date, and 06:00 Chicago time on that
    day (12:00 UTC) as the clock reading. *)
Definition newYear2024 : CalendarDate := mkDate 2024 1 1.
Definition sixAmChicago : Z := 1704110400000.

End Cutoff.

(* ================================================================= *)
(** ** The bid store ([store/index.ts]) *)

Module Store.

Record MarketSelection := mkSelection {
    iso : string;
    settlementPoint : string;
    tradingDate : string
  }.

Record MarketData := mkData {
    daHourly : list MarketPrice.t;
    rtFiveMin : list MarketPrice.t
  }.

Record AppState := mkState {
    marketSelection : MarketSelection;
    bids : list Bid.t;
    marketData : MarketData;
    hourlyClears : list HourlyClear.t;
    isLoading : bool;
    error : option string
  }.

(** [Omit<Bid, "id">] *)
Record BidData := mkBidData {
    hourStart : string;
    side : BidSide;
    price : JS.number;
    qtyMWh : JS.number
  }.

Definition initialState : AppState :=
  mkState (mkSelection "ercot" "HB_HOUSTON" "2024-12-01")
          [] (mkData [] []) [] false None.

(** [setMarketSelection], with the [Partial<MarketSelection>] argument as
    three optional fields. *)
Definition setMarketSelection (iso' sp' date' : option string)
    (state : AppState) : AppState :=
  let old := marketSelection state in
  mkState
    (mkSelection (match iso' with Some x => x | None => iso old end)
                 (match sp' with Some x => x | None => settlementPoint old end)
                 (match date' with Some x => x | None => tradingDate old end))
    (bids state) (mkData [] []) [] (isLoading state) None.

(** [addBid]; [uuid] is the value of [crypto.randomUUID()]. *)
Definition addBid (uuid : string) (bidData : BidData) (state : AppState)
  : AppState :=
  let bid := Bid.mk uuid (hourStart bidData) (side bidData)
                    (price bidData) (qtyMWh bidData) in
  let existingBidsForHour :=
    filter (fun b => String.eqb (Bid.hourStart b) (Bid.hourStart bid))
           (bids state) in
  if Nat.leb 10 (List.length existingBidsForHour)
  then mkState (marketSelection state) (bids state) (marketData state)
               (hourlyClears state) (isLoading state)
               (Some "Maximum 10 bids per hour allowed")
  else mkState (marketSelection state) (bids state ++ [bid])
               (marketData state) (hourlyClears state) (isLoading state)
               None.

(** [removeBid] *)
Definition removeBid (bidId : string) (state : AppState) : AppState :=
  mkState (marketSelection state)
          (filter (fun bid => negb (String.eqb (Bid.id bid) bidId)) (bids state))
          (marketData state) (hourlyClears state) (isLoading state)
          (error state).

(** [clearBids] *)
Definition clearBids (state : AppState) : AppState :=
  mkState (marketSelection state) [] (marketData state)
          (hourlyClears state) (isLoading state) (error state).

(** [getBidsForHour] *)
Definition getBidsForHour (hour : string) (state : AppState) : list Bid.t :=
  filter (fun bid => String.eqb (Bid.hourStart bid) hour) (bids state).

(** [setMarketData], each of the two arrays optional. *)
Definition setMarketData (da rt : option (list MarketPrice.t))
    (state : AppState) : AppState :=
  let old := marketData state in
  mkState (marketSelection state) (bids state)
          (mkData (match da with Some x => x | None => daHourly old end)
                  (match rt with Some x => x | None => rtFiveMin old end))
          (hourlyClears state) (isLoading state) (error state).

(** [setHourlyClears], [setLoading], [setError] *)
Definition setHourlyClears (clears : list HourlyClear.t) (state : AppState)
  : AppState :=
  mkState (marketSelection state) (bids state) (marketData state)
          clears (isLoading state) (error state).

Definition setLoading (loading : bool) (state : AppState) : AppState :=
  mkState (marketSelection state) (bids state) (marketData state)
          (hourlyClears state) loading (error state).

Definition setError (e : option string) (state : AppState) : AppState :=
  mkState (marketSelection state) (bids state) (marketData state)
          (hourlyClears state) (isLoading state) e.

(** [resetForNewDate] *)
Definition resetForNewDate (state : AppState) : AppState :=
  mkState (marketSelection state) [] (mkData [] []) []
          (isLoading state) None.

(** The store's actions, and the state each one leads to. *)
Inductive Action :=
  | SetMarketSelection (iso' sp' date' : option string)
  | AddBid (uuid : string) (bidData : BidData)
  | RemoveBid (bidId : string)
  | ClearBids
  | SetMarketData (da rt : option (list MarketPrice.t))
  | SetHourlyClears (clears : list HourlyClear.t)
  | SetLoading (loading : bool)
  | SetError (e : option string)
  | ResetForNewDate.

Definition dispatch (a : Action) (state : AppState) : AppState :=
  match a with
  | SetMarketSelection i s d => setMarketSelection i s d state
  | AddBid uuid bidData => addBid uuid bidData state
  | RemoveBid bidId => removeBid bidId state
  | ClearBids => clearBids state
  | SetMarketData da rt => setMarketData da rt state
  | SetHourlyClears clears => setHourlyClears clears state
  | SetLoading loading => setLoading loading state
  | SetError e => setError e state
  | ResetForNewDate => resetForNewDate state
  end.

(** States reachable from the initial state by the store's actions. *)
Inductive reachable : AppState -> Prop :=
  | reach_init : reachable initialState
  | reach_step a state : reachable state -> reachable (dispatch a state).

(** Number of bids held for one hour. *)
Definition bidsInHour (hour : string) (state : AppState) : nat :=
  List.length (getBidsForHour hour state).

(** The cap, as a property of a state. *)
Definition capped (state : AppState) : Prop :=
  forall hour, bidsInHour hour state <= 10.

(** A sequence of actions applied in order. *)
Definition run (actions : list Action) (state : AppState) : AppState :=
  fold_left (fun s a => dispatch a s) actions state.

(** Ten bids entered on one hour, and an eleventh. *)
Definition sampleBid : BidData :=
  mkBidData "2024-01-01T08:00:00.000-06:00" BUY 60%float 100%float.

Definition tenAdds : list Action :=
  List.map (fun uuid => AddBid uuid sampleBid)
    ["u0"; "u1"; "u2"; "u3"; "u4"; "u5"; "u6"; "u7"; "u8"; "u9"].

Definition fullHourState : AppState := run tenAdds initialState.

End Store.

(* ================================================================= *)
(** ** Words of the specification, for comparison with the code *)

(** "BUY clears iff bid.price >= daPrice; SELL clears iff bid.price <= daPrice." *)
Definition spec_clears (bid : Bid.t) (daPrice : JS.number) : Prop :=
  (Bid.side bid = BUY /\ JS.ge (Bid.price bid) daPrice = true) \/
  (Bid.side bid = SELL /\ JS.le (Bid.price bid) daPrice = true).

(** "+quantity for BUY, -quantity for SELL" *)
Definition spec_signedQty (bid : Bid.t) : JS.number :=
  match Bid.side bid with
  | BUY => Bid.qtyMWh bid
  | SELL => PrimFloat.opp (Bid.qtyMWh bid)
  end.

(** The bids placed on one hour, in the order they were given. *)
Definition bidsOfHour (hour : string) (bids : list Bid.t) : list Bid.t :=
  filter (fun b => String.eqb (Bid.hourStart b) hour) bids.

(** Sum of a list of numbers, added from left to right starting at 0. *)
Definition spec_sum (xs : list JS.number) : JS.number :=
  fold_left PrimFloat.add xs 0%float.

(** Number of elements that satisfy a test. *)
Definition spec_count {A : Type} (p : A -> bool) (xs : list A) : nat :=
  List.length (filter p xs).

(** The RT samples that fall in one clock hour, in input order. *)
Definition samplesOfHour (hourKey : string -> string) (hour : string)
    (rtData : list MarketPrice.t) : list MarketPrice.t :=
  filter (fun p => String.eqb (hourKey (MarketPrice.datetime_beginning_ept p)) hour)
         rtData.

(** The [{ price, settlement_point }] object pushed for a sample. *)
Definition pointOf (point : MarketPrice.t) : RtPoint.t :=
  RtPoint.mk (MarketPrice.settlement_point_price point)
             (MarketPrice.settlement_point point).

(** "All samples share one settlement point." *)
Definition sameSettlementPoint (rtData : list MarketPrice.t) : Prop :=
  forall p q, In p rtData -> In q rtData ->
    MarketPrice.settlement_point p = MarketPrice.settlement_point q.

(** "Shuffling input samples yields the same output." *)
Definition order_invariant (hourKey : string -> string)
    (localeCompare : string -> string -> Z) : Prop :=
  forall rtData shuffled : list MarketPrice.t,
    sameSettlementPoint rtData ->
    Permutation rtData shuffled ->
    averageRTToHourly hourKey localeCompare shuffled =
    averageRTToHourly hourKey localeCompare rtData.

(** What is left of an hourly average once its price is set aside. *)
Definition hourAndPoint (r : HourlyAverage.t) : string * string :=
  (HourlyAverage.hourStart r, HourlyAverage.settlement_point r).

(** Ascending order of the keys under the comparator. *)
Definition keyOrder {A : Type} (key : A -> string)
    (localeCompare : string -> string -> Z) (x y : A) : Prop :=
  (localeCompare (key x) (key y) <= 0)%Z.

(** A comparator that [Array.prototype.sort] can rely on for the strings of
    [dom]: a total order on them. *)
Definition consistentComparatorOn (dom : string -> Prop)
    (localeCompare : string -> string -> Z) : Prop :=
  (forall a b, dom a -> dom b ->
     (localeCompare a b <= 0)%Z \/ (localeCompare b a <= 0)%Z) /\
  (forall a b c, dom a -> dom b -> dom c ->
     (localeCompare a b <= 0)%Z -> (localeCompare b c <= 0)%Z ->
     (localeCompare a c <= 0)%Z) /\
  (forall a b, dom a -> dom b ->
     (localeCompare a b <= 0)%Z -> (localeCompare b a <= 0)%Z -> a = b).

(** The hour keys of a list of samples. *)
Definition hourKeysOf (hourKey : string -> string)
    (rtData : list MarketPrice.t) : list string :=
  map (fun p => hourKey (MarketPrice.datetime_beginning_ept p)) rtData.

(* ================================================================= *)
(** ** Concrete instances used to run the definitions *)

(** The hour key of a timestamp written [YYYY-MM-DDTHH:mm:ss.SSS+hh:mm] with
    the market zone's own offset: minutes, seconds and milliseconds are
    zeroed and the offset is kept. *)
Definition truncateToHour (s : string) : string :=
  substring 0 14 s ++ "00:00.000" ++ substring 23 6 s.

(** Comparison by character codes; on timestamps of one shape it orders as
    [localeCompare] does. *)
Definition codeCompare (a b : string) : Z :=
  match String.compare a b with
  | Lt => (-1)%Z
  | Eq => 0%Z
  | Gt => 1%Z
  end.

(** The reference data of [clearing.test.ts]. *)
Definition hour08 : string := "2024-01-01T08:00:00.000-06:00".
Definition hour09 : string := "2024-01-01T09:00:00.000-06:00".

Definition mockBids : list Bid.t :=
  [ Bid.mk "1" hour08 BUY 60%float 100%float;
    Bid.mk "2" hour08 SELL 50%float 50%float;
    Bid.mk "3" hour09 BUY 40%float 75%float ].

Definition mockDAPrices : list MarketPrice.t :=
  [ MarketPrice.mk hour08 "2024-01-01T14:00:00.000Z" "HB_HOUSTON" 55%float;
    MarketPrice.mk hour09 "2024-01-01T15:00:00.000Z" "HB_HOUSTON" 35%float ].

Definition mockRTPrices : list MarketPrice.t :=
  [ MarketPrice.mk hour08 "2024-01-01T14:00:00.000Z" "HB_HOUSTON" 60%float;
    MarketPrice.mk hour09 "2024-01-01T15:00:00.000Z" "HB_HOUSTON" 40%float ].

(** The two records the tests expect for that data. *)
Definition clear08 : HourlyClear.t :=
  HourlyClear.mk hour08 (Some 55%float) (Some 60%float) 50%float 250%float.
Definition clear09 : HourlyClear.t :=
  HourlyClear.mk hour09 (Some 35%float) (Some 40%float) 75%float 375%float.

(** The record of an hour whose prices are both missing. *)
Definition flat_hour (hourStart : string) : HourlyClear.t :=
  HourlyClear.mk hourStart None None 0%float 0%float.

(** A five-minute sample of hour 08:00, taken at the given minute. *)
Definition rtSample (minute : string) (p : JS.number) : MarketPrice.t :=
  MarketPrice.mk ("2024-01-01T08:" ++ minute ++ ":00.000-06:00")
                 ("2024-01-01T14:" ++ minute ++ ":00.000Z") "HB_HOUSTON" p.

(** The doubles that JavaScript writes [0.1], [0.2] and [0.3]. *)
Definition price_a : JS.number := Eval cbv in (1 / 10)%float.
Definition price_b : JS.number := Eval cbv in (2 / 10)%float.
Definition price_c : JS.number := Eval cbv in (3 / 10)%float.

(** Three samples of one hour, and the same samples reversed. *)
Definition samples_abc : list MarketPrice.t :=
  [ rtSample "00" price_a; rtSample "05" price_b; rtSample "10" price_c ].

Definition samples_cba : list MarketPrice.t :=
  [ rtSample "10" price_c; rtSample "05" price_b; rtSample "00" price_a ].

(** Samples of two hours, and a shuffle that moves the 09:00 sample to the
    front but keeps the 08:00 samples in their order. *)
Definition samples_mixed : list MarketPrice.t :=
  [ rtSample "00" price_a;
    MarketPrice.mk hour09 "2024-01-01T15:00:00.000Z" "HB_HOUSTON" 40%float;
    rtSample "05" price_b ].

Definition samples_mixed_shuffled : list MarketPrice.t :=
  [ MarketPrice.mk hour09 "2024-01-01T15:00:00.000Z" "HB_HOUSTON" 40%float;
    rtSample "00" price_a;
    rtSample "05" price_b ].

(* ================================================================= *)
(** ** Luxon with zones whose offset changes

    The hour starts of a trading date, and the cutoff once more, over zones
    that switch between standard and daylight-saving time.  A zone gives its
    UTC offset, in minutes, at every instant; a [DateTime] carries the
    instant, the zone and the offset [o] its wall-clock fields are read
    with. *)

Module Zoned.
Import Luxon.
Local Open Scope Z_scope.

Definition Zone := Z -> Z.

Record ZonedDateTime := mkZoned { zts : Z; zone : Zone; o : Z }.

(** Luxon's [fixOffset(localTS, o, tz)]: the instant that reads [localTS]
    on the wall clock of [tz], found from the guessed offset [o].  The guess
    is kept when the zone confirms it; otherwise the zone's offset at the
    guessed instant is tried; a wall-clock time skipped by a switch to
    daylight-saving time falls through to the last case. *)
Definition fixOffset (localTS guess : Z) (tz : Zone) : Z * Z :=
  let utcGuess := localTS - guess * MS_PER_MINUTE in
  let o2 := tz utcGuess in
  if guess =? o2 then (utcGuess, guess)
  else
    let utcGuess2 := utcGuess - (o2 - guess) * MS_PER_MINUTE in
    let o3 := tz utcGuess2 in
    if o2 =? o3 then (utcGuess2, o2)
    else (localTS - Z.min o2 o3 * MS_PER_MINUTE, Z.max o2 o3).

Definition resolved (z : Zone) (r : Z * Z) : ZonedDateTime :=
  mkZoned (fst r) z (snd r).

(** [DateTime.fromISO("YYYY-MM-DD")] on a runtime whose local zone is
    [localZone]: midnight of that date on the local wall clock; the first
    guess for the offset is the local offset at the time of the call. *)
Definition fromISO (localZone : Zone) (clock : Z) (d : CalendarDate)
  : ZonedDateTime :=
  resolved localZone
    (fixOffset (days_from_civil d * MS_PER_DAY) (localZone clock) localZone).

(** [dt.setZone(z)]: the same instant, read with the offset [z] has then. *)
Definition setZone (z : Zone) (dt : ZonedDateTime) : ZonedDateTime :=
  mkZoned (zts dt) z (z (zts dt)).

Definition localMillis (dt : ZonedDateTime) : Z :=
  zts dt + o dt * MS_PER_MINUTE.
Definition localDay (dt : ZonedDateTime) : Z := localMillis dt / MS_PER_DAY.
Definition hour (dt : ZonedDateTime) : Z :=
  (localMillis dt mod MS_PER_DAY) / MS_PER_HOUR.
Definition minute (dt : ZonedDateTime) : Z :=
  (localMillis dt mod MS_PER_HOUR) / MS_PER_MINUTE.

(** [dt.set({ hour, minute, second, millisecond })]: the wall-clock time
    of day is replaced on the local calendar day of [dt] and the instant is
    resolved again, with the offset of [dt] as guess. *)
Definition set_time (h mi s ms : Z) (dt : ZonedDateTime) : ZonedDateTime :=
  resolved (zone dt)
    (fixOffset (localDay dt * MS_PER_DAY + (((h * 60 + mi) * 60 + s) * 1000 + ms))
               (o dt) (zone dt)).

(** [dt.startOf("day")] *)
Definition startOf_day (dt : ZonedDateTime) : ZonedDateTime :=
  set_time 0 0 0 0 dt.

(** [dt.plus({ hours: n })]: the wall-clock reading is resolved again, then
    the hours are added to the instant and the offset is read anew. *)
Definition plus_hours (n : Z) (dt : ZonedDateTime) : ZonedDateTime :=
  let r := fixOffset (localMillis dt) (o dt) (zone dt) in
  let millisToAdd := n * MS_PER_HOUR in
  if millisToAdd =? 0 then resolved (zone dt) r
  else mkZoned (fst r + millisToAdd) (zone dt)
               (zone dt (fst r + millisToAdd)).

Section Zones.
(** The runtime's local zone, [MARKET_TIMEZONE], and the clock reading at
    the time of the call. *)
Variables localZone marketZone : Zone.
Variable clock : Z.

(** [getCutoffTime] *)
Definition getCutoffTime (tradingDate : CalendarDate) : ZonedDateTime :=
  set_time Cutoff.CUTOFF_HOUR Cutoff.CUTOFF_MINUTE 0 0
    (setZone marketZone (fromISO localZone clock tradingDate)).

(** [getHourStartsForDate], before each entry is rendered by [toISO]. *)
Definition getHourStartsForDate (tradingDate : CalendarDate)
  : list ZonedDateTime :=
  let startOfDay :=
    startOf_day (setZone marketZone (fromISO localZone clock tradingDate)) in
  List.map (fun i => plus_hours (Z.of_nat i) startOfDay) (seq 0 24).
End Zones.

(** The zone keeps the offset [off] from a day before to a day after the
    instant [t]. *)
Definition steadyAround (z : Zone) (off t : Z) : Prop :=
  forall u, t - MS_PER_DAY <= u <= t + MS_PER_DAY -> z u = off.

(** America/Chicago in 2024: UTC-6, and UTC-5 from 10 March 08:00 UTC to
    3 November 07:00 UTC. *)
Definition chicago2024 : Zone :=
  fun t => if (1710057600000 <=? t) && (t <? 1730617200000) then -300 else -360.

(** A runtime on UTC. *)
Definition utc : Zone := fun _ => 0.

Definition springForward2024 : CalendarDate := mkDate 2024 3 10.

End Zoned.

(* ================================================================= *)
(** ** The market-data proxy ([app/api/grid/[dataset]/route.ts]) *)

Module Route.

(** [RawApiDataItem]: every field may be missing. *)
Record RawApiDataItem := mkRaw {
  interval_start_local : option string;
  interval_start_utc : option string;
  interval_end_local : option string;
  interval_end_utc : option string;
  location : option string;
  location_type : option string;
  market : option string;
  spp : option JS.number
}.

(** [!!s] for an optional string: present and not empty. *)
Definition truthy (s : option string) : bool :=
  match s with
  | Some x => negb (String.eqb x "")
  | None => false
  end.

(** The filter of [transformGridStatusData]. *)
Definition isComplete (item : RawApiDataItem) : bool :=
  truthy (interval_start_local item) &&
  truthy (interval_start_utc item) &&
  truthy (location item) &&
  match spp item with Some _ => true | None => false end.

Definition stringOf (s : option string) : string :=
  match s with Some x => x | None => "" end.

Definition numberOf (x : option JS.number) : JS.number :=
  match x with Some v => v | None => PrimFloat.nan end.

(** The mapping of [transformGridStatusData]; it only sees items that
    passed the filter, whose fields are all present. *)
Definition toMarketPrice (item : RawApiDataItem) : MarketPrice.t :=
  MarketPrice.mk (stringOf (interval_start_local item))
                 (stringOf (interval_start_utc item))
                 (stringOf (location item))
                 (numberOf (spp item)).

(** [transformGridStatusData] *)
Definition transformGridStatusData (data : list RawApiDataItem)
  : list MarketPrice.t :=
  List.map toMarketPrice (filter isComplete data).

(** A raw item that carries a price record (the end of the interval, the
    location type and the market are left out). *)
Definition rawOf (p : MarketPrice.t) : RawApiDataItem :=
  mkRaw (Some (MarketPrice.datetime_beginning_ept p))
        (Some (MarketPrice.datetime_beginning_utc p))
        None None
        (Some (MarketPrice.settlement_point p))
        None None
        (Some (MarketPrice.settlement_point_price p)).

(** A price record none of whose three strings is empty. *)
Definition wellFormed (p : MarketPrice.t) : Prop :=
  MarketPrice.datetime_beginning_ept p <> "" /\
  MarketPrice.datetime_beginning_utc p <> "" /\
  MarketPrice.settlement_point p <> "".

(** What the upstream call of one attempt does: it answers, or it fails
    (network error, timeout). *)
Record Response := mkResponse {
  status : Z;
  statusText : string
}.

Inductive Outcome :=
| Responded (res : Response)
| Failed (message : string).

(** How [fetchWithRetry] ends, with the number of calls made and the
    delays slept in between. *)
Inductive FetchResult :=
| Returned (res : Response)
| Thrown (message : string).

Record RetryTrace := mkTrace {
  result : FetchResult;
  attemptsUsed : nat;
  sleeps : list Z
}.

Definition finish (r : FetchResult) : RetryTrace := mkTrace r 1 [].

Definition sleepThen (delayMs : Z) (t : RetryTrace) : RetryTrace :=
  mkTrace (result t) (S (attemptsUsed t)) (delayMs :: sleeps t).

Section Retry.
(** [fetch n]: the outcome of the call made at attempt [n]. *)
Variable fetch : nat -> Outcome.

(** [getBackoffMs(response, attempt)]: the delay after a 429, read from the
    [retry-after] header and the clock, else [1200 * (attempt + 1)]. *)
Variable getBackoffMs : Response -> nat -> Z.

(** The loop of [fetchWithRetry] from attempt [attempt] on, with
    [remaining = maxRetries - attempt] retries left; [attempt < maxRetries]
    is [remaining > 0]. *)
Fixpoint attemptFrom (remaining attempt : nat) : RetryTrace :=
  match fetch attempt with
  | Responded res =>
      match remaining with
      | S remaining' =>
          if (status res =? 429)%Z
          then sleepThen (getBackoffMs res attempt)
                         (attemptFrom remaining' (S attempt))
          else finish (Returned res)
      | O => finish (Returned res)
      end
  | Failed message =>
      match remaining with
      | S remaining' =>
          sleepThen (1200 * (Z.of_nat attempt + 1))%Z
                    (attemptFrom remaining' (S attempt))
      | O => finish (Thrown message)
      end
  end.

(** [fetchWithRetry(maxRetries)] *)
Definition fetchWithRetry (maxRetries : nat) : RetryTrace :=
  attemptFrom maxRetries 0.

(** An outcome after which the loop tries again when it may. *)
Definition retryable (o : Outcome) : Prop :=
  match o with
  | Responded res => status res = 429%Z
  | Failed _ => True
  end.

(** The delay slept after the outcome of attempt [k]. *)
Definition delayAfter (k : nat) : Z :=
  match fetch k with
  | Responded res => getBackoffMs res k
  | Failed _ => (1200 * (Z.of_nat k + 1))%Z
  end.

(** The outcome a result stands for. *)
Definition outcomeOf (r : FetchResult) : Outcome :=
  match r with
  | Returned res => Responded res
  | Thrown message => Failed message
  end.
(** What a trace of the loop started at attempt [attempt] with [remaining]
    retries left says about the calls made. *)
Definition describesCalls (remaining attempt : nat) (t : RetryTrace) : Prop :=
  1 <= attemptsUsed t <= S remaining /\
  S (List.length (sleeps t)) = attemptsUsed t /\
  fetch (attempt + attemptsUsed t - 1) = outcomeOf (result t) /\
  (forall k, k < attemptsUsed t - 1 ->
     retryable (fetch (attempt + k)) /\
     nth_error (sleeps t) k = Some (delayAfter (attempt + k))) /\
  (retryable (fetch (attempt + attemptsUsed t - 1)) ->
   attemptsUsed t = S remaining).

End Retry.

End Route.

(* ================================================================= *)
(** ** The price chart's data ([components/PriceChart.tsx]) *)

Module ChartDataPoint.
Record t := mk {
  hour : string;
  hourDisplay : string;
  daPrice : option JS.number;
  rtPrice : option JS.number;
  spread : option JS.number
}.
End ChartDataPoint.

(** The comparison [Array.prototype.sort()] uses without argument: strings
    by their code units. *)
Definition defaultCompare (a b : string) : Z := codeCompare a b.

Section Chart.
Variable hourKey : string -> string.
Variable localeCompare : string -> string -> Z.
(** [formatHourForDisplay] *)
Variable formatHourForDisplay : string -> string.

Definition chartHours (daHourly : list MarketPrice.t)
    (rtHourlyAverages : list HourlyAverage.t) : JS.StrSet :=
  let allHours :=
    fold_left
      (fun s price => JS.set_add (MarketPrice.datetime_beginning_ept price) s)
      daHourly [] in
  fold_left (fun s avg => JS.set_add (HourlyAverage.hourStart avg) s)
            rtHourlyAverages allHours.

(** The body of the loop that fills [chartData]. *)
Definition chartPoint (daPricesByHour rtPricesByHour : JS.Map JS.number)
    (hourStart : string) : ChartDataPoint.t :=
  let daPrice := JS.map_get hourStart daPricesByHour in
  let rtPrice := JS.map_get hourStart rtPricesByHour in
  let spread :=
    match daPrice, rtPrice with
    | Some da, Some rt => Some (PrimFloat.sub rt da)
    | _, _ => None
    end in
  ChartDataPoint.mk hourStart (formatHourForDisplay hourStart)
                    daPrice rtPrice spread.

(** [chartData] as [PriceChart] builds it from the market data. *)
Definition chartData (daHourly rtFiveMin : list MarketPrice.t)
  : list ChartDataPoint.t :=
  let daPricesByHour := daPriceMap daHourly in
  let rtHourlyAverages := averageRTToHourly hourKey localeCompare rtFiveMin in
  let rtPricesByHour := rtPriceMap rtHourlyAverages in
  let allHours := chartHours daHourly rtHourlyAverages in
  List.map (chartPoint daPricesByHour rtPricesByHour)
           (JS.array_sort defaultCompare allHours).
End Chart.

(* ================================================================= *)
(** ** Further words for stating properties *)

(** The record [averageRTToHourly] produces for an hour: the mean of the
    hour's samples in input order, with the settlement point of the first. *)
Definition hourAverage (hourKey : string -> string) (hour : string)
    (rtData : list MarketPrice.t) : option HourlyAverage.t :=
  match List.map pointOf (samplesOfHour hourKey hour rtData) with
  | [] => None
  | p0 :: rest =>
      Some (HourlyAverage.mk hour
              (PrimFloat.div (sumPrices (p0 :: rest))
                             (JS.of_length (List.length (p0 :: rest))))
              (RtPoint.settlement_point p0))
  end.

(** The DA points of one hour, in input order. *)
Definition daPointsOfHour (hour : string) (da : list MarketPrice.t)
  : list MarketPrice.t :=
  filter (fun p => String.eqb (MarketPrice.datetime_beginning_ept p) hour) da.

(** The identifiers of the bids held by the store. *)
Definition bidIds (state : Store.AppState) : list string :=
  List.map Bid.id (Store.bids state).

(** Actions whose [addBid] identifiers are new to the store and to each
    other, as [crypto.randomUUID()] provides them. *)
Fixpoint freshRun (actions : list Store.Action) (state : Store.AppState)
  : Prop :=
  match actions with
  | [] => True
  | a :: rest =>
      match a with
      | Store.AddBid uuid _ => ~ In uuid (bidIds state)
      | _ => True
      end /\ freshRun rest (Store.dispatch a state)
  end.

(* ================================================================= *)
(** * Properties *)

(** ** Numbers *)

(** On specification floats, comparing equal is symmetric. *)
Lemma SFcompare_Eq_sym (a b : spec_float) :
  SFcompare a b = Some Eq -> SFcompare b a = Some Eq.
Proof.
  destruct a as [sa | sa | | sa ma ea], b as [sb | sb | | sb mb eb]; simpl;
    try discriminate; try reflexivity;
    try (destruct sa; discriminate); try (destruct sb; discriminate).
  - destruct sa, sb; simpl; intros H; try discriminate; reflexivity.
  - destruct sa, sb; try discriminate;
      destruct (ea ?= eb)%Z eqn:E; try discriminate;
      apply Z.compare_eq in E; subst eb; rewrite Z.compare_refl;
      intros H; injection H as H;
      [ destruct (Pos.compare_cont Eq ma mb) eqn:F; try discriminate | ];
      change (Pos.compare_cont Eq ma mb) with (ma ?= mb)%positive in *;
      apply Pos.compare_eq in F || apply Pos.compare_eq in H; subst mb;
      change (Pos.compare_cont Eq ma ma) with (ma ?= ma)%positive;
      rewrite Pos.compare_refl; reflexivity.
Qed.

(** IEEE equality implies [<=] in both directions (neither side is NaN). *)
Lemma number_eq_le (x y : JS.number) :
  JS.strict_eq x y = true -> JS.le x y = true /\ JS.ge x y = true.
Proof.
  unfold JS.strict_eq, JS.le, JS.ge.
  rewrite eqb_spec, !leb_spec.
  unfold SFeqb, SFleb.
  destruct (SFcompare (Prim2SF x) (Prim2SF y)) as [[| |]|] eqn:E; try discriminate.
  rewrite (SFcompare_Eq_sym _ _ E). auto.
Qed.

(** ** Maps, sets and sorting *)

Section MapFacts.
Context {V : Type}.
Implicit Types (m : JS.Map V) (k h : string) (v : V).

Lemma map_get_set_same m k v : JS.map_get k (JS.map_set k v m) = Some v.
Proof.
  induction m as [|[k' v'] m IH]; simpl.
  - now rewrite String.eqb_refl.
  - destruct (String.eqb k' k) eqn:E; simpl; rewrite E; auto.
Qed.

Lemma map_get_set_other m k h v :
  k <> h -> JS.map_get h (JS.map_set k v m) = JS.map_get h m.
Proof.
  intros Hne. induction m as [|[k' v'] m IH]; simpl.
  - apply String.eqb_neq in Hne. now rewrite Hne.
  - destruct (String.eqb k' k) eqn:E; simpl.
    + apply String.eqb_eq in E; subst k'.
      apply String.eqb_neq in Hne. now rewrite Hne.
    + destruct (String.eqb k' h); auto.
Qed.

Lemma map_get_None_keys m k :
  JS.map_get k m = None <-> ~ In k (JS.map_keys m).
Proof.
  induction m as [|[k' v'] m IH]; simpl.
  - tauto.
  - destruct (String.eqb k' k) eqn:E.
    + apply String.eqb_eq in E. split; [discriminate | tauto].
    + apply String.eqb_neq in E. tauto.
Qed.

Lemma map_has_keys m k : JS.map_has k m = true <-> In k (JS.map_keys m).
Proof.
  unfold JS.map_has. pose proof (map_get_None_keys m k) as H.
  destruct (JS.map_get k m); split; intros; try congruence.
  - destruct (in_dec string_dec k (JS.map_keys m)); auto.
    assert (Some v = None) by tauto. discriminate.
  - tauto.
Qed.

Lemma map_keys_set m k v :
  JS.map_keys (JS.map_set k v m) =
  if JS.map_has k m then JS.map_keys m else JS.map_keys m ++ [k].
Proof.
  unfold JS.map_has.
  induction m as [|[k' v'] m IH]; simpl; auto.
  destruct (String.eqb k' k) eqn:E; simpl; auto.
  rewrite IH. destruct (JS.map_get k m); auto.
Qed.

Lemma map_keys_set_In m k v h :
  In h (JS.map_keys (JS.map_set k v m)) <-> h = k \/ In h (JS.map_keys m).
Proof.
  rewrite map_keys_set. destruct (JS.map_has k m) eqn:E.
  - apply map_has_keys in E. split; [tauto | intros [->|]; auto].
  - rewrite in_app_iff. simpl. intuition.
Qed.

Lemma map_keys_set_NoDup m k v :
  NoDup (JS.map_keys m) -> NoDup (JS.map_keys (JS.map_set k v m)).
Proof.
  intros Hnd. rewrite map_keys_set. destruct (JS.map_has k m) eqn:E; auto.
  assert (~ In k (JS.map_keys m)) as Hk.
  { intros Hin. apply map_has_keys in Hin. congruence. }
  clear E. induction (JS.map_keys m) as [|x l IH]; simpl.
  - constructor; [tauto | constructor].
  - inversion Hnd; subst. constructor.
    + rewrite in_app_iff. simpl in *. intuition.
    + apply IH; simpl in *; tauto.
Qed.
End MapFacts.

Section GroupFacts.
Context {A V : Type} (key : A -> string) (val : A -> V).

(** The non-null assertion in [groups.get(k)!.push(v)] always holds. *)
Lemma group_push_defined (k : string) (g : JS.Map (list V)) :
  JS.map_get k (if JS.map_has k g then g else JS.map_set k [] g) <> None.
Proof.
  unfold JS.map_has. destruct (JS.map_get k g) eqn:E.
  - congruence.
  - rewrite map_get_set_same. discriminate.
Qed.

Lemma group_push_same (k : string) (v : V) (g : JS.Map (list V)) :
  JS.map_get k (group_push k v g) = Some (get_or_nil k g ++ [v]).
Proof.
  unfold group_push, get_or_nil, JS.map_has.
  destruct (JS.map_get k g) eqn:E.
  - rewrite E. apply map_get_set_same.
  - rewrite map_get_set_same. apply map_get_set_same.
Qed.

Lemma group_push_other (k h : string) (v : V) (g : JS.Map (list V)) :
  k <> h -> JS.map_get h (group_push k v g) = JS.map_get h g.
Proof.
  intros Hne. unfold group_push, JS.map_has.
  destruct (JS.map_get k g) eqn:E.
  - rewrite E. now apply map_get_set_other.
  - rewrite map_get_set_same. rewrite !map_get_set_other; auto.
Qed.

Lemma group_push_keys_In (k h : string) (v : V) (g : JS.Map (list V)) :
  In h (JS.map_keys (group_push k v g)) <-> h = k \/ In h (JS.map_keys g).
Proof.
  unfold group_push, JS.map_has.
  destruct (JS.map_get k g) eqn:E.
  - rewrite E. apply map_keys_set_In.
  - rewrite map_get_set_same. rewrite !map_keys_set_In. tauto.
Qed.

Lemma group_push_keys_NoDup (k : string) (v : V) (g : JS.Map (list V)) :
  NoDup (JS.map_keys g) -> NoDup (JS.map_keys (group_push k v g)).
Proof.
  intros H. unfold group_push, JS.map_has.
  destruct (JS.map_get k g) eqn:E.
  - rewrite E. now apply map_keys_set_NoDup.
  - rewrite map_get_set_same. now apply map_keys_set_NoDup, map_keys_set_NoDup.
Qed.

(** After grouping, the array under [h] is what was there before followed
    by the values of the elements keyed [h], in input order. *)
Lemma grouped_get (h : string) (xs : list A) (g0 : JS.Map (list V)) :
  get_or_nil h (grouped key val xs g0) =
  get_or_nil h g0 ++ map val (filter (fun x => String.eqb (key x) h) xs).
Proof.
  revert g0. induction xs as [|x xs IH]; intros g0; simpl.
  - now rewrite app_nil_r.
  - unfold grouped in *. simpl. rewrite IH.
    destruct (String.eqb (key x) h) eqn:E; simpl.
    + apply String.eqb_eq in E. subst h.
      unfold get_or_nil at 1. rewrite group_push_same.
      now rewrite <- app_assoc.
    + apply String.eqb_neq in E.
      unfold get_or_nil. now rewrite group_push_other.
Qed.

Lemma grouped_keys_In (h : string) (xs : list A) (g0 : JS.Map (list V)) :
  In h (JS.map_keys (grouped key val xs g0)) <->
  In h (JS.map_keys g0) \/ In h (map key xs).
Proof.
  revert g0. induction xs as [|x xs IH]; intros g0; simpl.
  - tauto.
  - unfold grouped in *. simpl. rewrite IH, group_push_keys_In.
    intuition.
Qed.

Lemma grouped_keys_NoDup (xs : list A) (g0 : JS.Map (list V)) :
  NoDup (JS.map_keys g0) -> NoDup (JS.map_keys (grouped key val xs g0)).
Proof.
  revert g0. induction xs as [|x xs IH]; intros g0 H; simpl; auto.
  apply IH. now apply group_push_keys_NoDup.
Qed.

(** Every key of the grouping holds at least one element. *)
Lemma grouped_nonempty (h : string) (xs : list A) :
  In h (JS.map_keys (grouped key val xs [])) ->
  JS.map_get h (grouped key val xs []) =
    Some (map val (filter (fun x => String.eqb (key x) h) xs)) /\
  filter (fun x => String.eqb (key x) h) xs <> [].
Proof.
  intros Hin. pose proof (grouped_get h xs []) as Hg.
  unfold get_or_nil in Hg. simpl in Hg.
  destruct (JS.map_get h (grouped key val xs [])) eqn:E.
  - split; [now rewrite Hg |].
    apply grouped_keys_In in Hin. destruct Hin as [[]|Hin].
    apply in_map_iff in Hin. destruct Hin as (x & Hx & Hxin).
    intros Hnil.
    assert (In x (filter (fun x => String.eqb (key x) h) xs)) as Hf.
    { apply filter_In. split; auto. now apply String.eqb_eq. }
    rewrite Hnil in Hf. destruct Hf.
  - apply map_get_None_keys in E. contradiction.
Qed.
End GroupFacts.

Section SetFacts.
Context {A : Type} (f : A -> string).

Lemma set_has_In (k : string) (s : JS.StrSet) :
  JS.set_has k s = true <-> In k s.
Proof.
  unfold JS.set_has. rewrite existsb_exists. split.
  - intros (x & Hx & E). apply String.eqb_eq in E. now subst.
  - intros H. exists k. split; auto. apply String.eqb_refl.
Qed.

Lemma set_add_In (k h : string) (s : JS.StrSet) :
  In h (JS.set_add k s) <-> h = k \/ In h s.
Proof.
  unfold JS.set_add. destruct (JS.set_has k s) eqn:E.
  - apply set_has_In in E. split; [tauto | intros [->|]; auto].
  - rewrite in_app_iff. simpl. intuition.
Qed.

Lemma set_add_NoDup (k : string) (s : JS.StrSet) :
  NoDup s -> NoDup (JS.set_add k s).
Proof.
  intros H. unfold JS.set_add. destruct (JS.set_has k s) eqn:E; auto.
  assert (~ In k s) as Hk.
  { intros Hin. apply set_has_In in Hin. congruence. }
  clear E. induction s as [|x s IH]; simpl.
  - constructor; [tauto | constructor].
  - inversion H; subst. constructor.
    + rewrite in_app_iff. simpl in *. intuition.
    + apply IH; simpl in *; tauto.
Qed.

Lemma add_all_In (h : string) (xs : list A) (s : JS.StrSet) :
  In h (fold_left (fun s x => JS.set_add (f x) s) xs s) <->
  In h s \/ In h (map f xs).
Proof.
  revert s. induction xs as [|x xs IH]; intros s; simpl.
  - tauto.
  - rewrite IH, set_add_In. intuition.
Qed.

Lemma add_all_NoDup (xs : list A) (s : JS.StrSet) :
  NoDup s -> NoDup (fold_left (fun s x => JS.set_add (f x) s) xs s).
Proof.
  revert s. induction xs as [|x xs IH]; intros s H; simpl; auto.
  apply IH. now apply set_add_NoDup.
Qed.
End SetFacts.

Section SortFacts.
Context {A : Type} (compareFn : A -> A -> Z).

Lemma sort_insert_perm (x : A) (l : list A) :
  Permutation (JS.sort_insert compareFn x l) (x :: l).
Proof.
  induction l as [|y l IH]; simpl; auto.
  destruct (compareFn x y <=? 0)%Z; auto.
  rewrite IH. apply perm_swap.
Qed.

(** Sorting rearranges the array and nothing else. *)
Lemma array_sort_perm (l : list A) : Permutation (JS.array_sort compareFn l) l.
Proof.
  induction l as [|x l IH]; simpl; auto.
  rewrite sort_insert_perm. now constructor.
Qed.

Lemma array_sort_In (x : A) (l : list A) :
  In x (JS.array_sort compareFn l) <-> In x l.
Proof.
  split; apply Permutation_in;
    [apply array_sort_perm | symmetry; apply array_sort_perm].
Qed.
End SortFacts.

Lemma find_app_first {A : Type} (p : A -> bool) (l1 l2 : list A) :
  find p (l1 ++ l2) =
  match find p l1 with Some x => Some x | None => find p l2 end.
Proof.
  induction l1 as [|x l1 IH]; simpl; auto.
  destruct (p x); auto.
Qed.

(** ** The clearing engine *)

Lemma groupBids_get (h : string) (bids : list Bid.t) :
  get_or_nil h (groupBids bids) = bidsOfHour h bids.
Proof.
  change (groupBids bids) with (grouped Bid.hourStart (fun b => b) bids []).
  rewrite grouped_get. simpl. apply map_id.
Qed.

Lemma groupBids_keys_In (h : string) (bids : list Bid.t) :
  In h (JS.map_keys (groupBids bids)) <-> In h (map Bid.hourStart bids).
Proof.
  change (groupBids bids) with (grouped Bid.hourStart (fun b => b) bids []).
  rewrite grouped_keys_In. simpl. tauto.
Qed.

Lemma collectHours_In (h : string) (bids : list Bid.t)
    (da : list MarketPrice.t) :
  In h (collectHours (groupBids bids) da) <->
  In h (map Bid.hourStart bids) \/
  In h (map MarketPrice.datetime_beginning_ept da).
Proof.
  unfold collectHours. rewrite add_all_In.
  rewrite (add_all_In (fun hour : string => hour)).
  rewrite map_id, groupBids_keys_In. simpl. tauto.
Qed.

Lemma collectHours_NoDup (g : JS.Map (list Bid.t)) (da : list MarketPrice.t) :
  NoDup (collectHours g da).
Proof.
  unfold collectHours. apply add_all_NoDup.
  apply (add_all_NoDup (fun hour : string => hour)). constructor.
Qed.

(** Last write wins in [daPricesByHour]. *)
Lemma daPriceMap_fold (h : string) (da : list MarketPrice.t)
    (m0 : JS.Map JS.number) :
  JS.map_get h
    (fold_left
       (fun m price =>
          JS.map_set (MarketPrice.datetime_beginning_ept price)
                     (MarketPrice.settlement_point_price price) m) da m0) =
  match find (fun p => String.eqb (MarketPrice.datetime_beginning_ept p) h)
             (rev da) with
  | Some p => Some (MarketPrice.settlement_point_price p)
  | None => JS.map_get h m0
  end.
Proof.
  revert m0. induction da as [|x xs IH]; intros m0; simpl; auto.
  rewrite IH, find_app_first.
  destruct (find _ (rev xs)); auto. simpl.
  destruct (String.eqb (MarketPrice.datetime_beginning_ept x) h) eqn:E.
  - apply String.eqb_eq in E. subst h. apply map_get_set_same.
  - apply String.eqb_neq in E. now apply map_get_set_other.
Qed.

Lemma daPriceMap_get (h : string) (da : list MarketPrice.t) :
  JS.map_get h (daPriceMap da) =
  option_map MarketPrice.settlement_point_price
    (find (fun p => String.eqb (MarketPrice.datetime_beginning_ept p) h)
          (rev da)).
Proof.
  unfold daPriceMap. rewrite daPriceMap_fold.
  destruct (find _ (rev da)); reflexivity.
Qed.

(** The loop over an hour's bids adds the signed quantity of each bid
    that clears. *)
Lemma accumulateCleared_spec (hourBids : list Bid.t) (p : JS.number) :
  accumulateCleared hourBids p =
  fold_left
    (fun acc b =>
       if shouldBidClear b p then PrimFloat.add acc (spec_signedQty b) else acc)
    hourBids 0%float.
Proof. reflexivity. Qed.

Lemma shouldBidClear_spec (b : Bid.t) (p : JS.number) :
  shouldBidClear b p = true <-> spec_clears b p.
Proof.
  unfold shouldBidClear, spec_clears.
  destruct (Bid.side b); split; intros H; auto.
  - destruct H as [[_ H]|[H _]]; [auto | discriminate].
  - destruct H as [[H _]|[_ H]]; [discriminate | auto].
Qed.

Section EngineFacts.
Variable hourKey : string -> string.
Variable localeCompare : string -> string -> Z.

(** What [clearBids] returns: one record per collected hour, rearranged. *)
Lemma clearBids_In (bids : list Bid.t) (da rt : list MarketPrice.t)
    (r : HourlyClear.t) :
  In r (clearBids hourKey localeCompare bids da rt) <->
  exists h,
    (In h (map Bid.hourStart bids) \/
     In h (map MarketPrice.datetime_beginning_ept da)) /\
    r = clearHour (groupBids bids) (daPriceMap da)
          (rtPriceMap (averageRTToHourly hourKey localeCompare rt)) h.
Proof.
  unfold clearBids. rewrite array_sort_In, in_map_iff.
  split; intros (h & H1 & H2); exists h.
  - apply collectHours_In in H2. auto.
  - apply collectHours_In in H1. auto.
Qed.

Lemma clearBids_hours (bids : list Bid.t) (da rt : list MarketPrice.t) :
  Permutation
    (map HourlyClear.hourStart (clearBids hourKey localeCompare bids da rt))
    (collectHours (groupBids bids) da).
Proof.
  unfold clearBids. rewrite array_sort_perm, map_map. simpl.
  now rewrite map_id.
Qed.

(** The fields of every record [clearBids] returns, in terms of the inputs. *)
Lemma clearBids_record (bids : list Bid.t) (da rt : list MarketPrice.t)
    (r : HourlyClear.t) :
  In r (clearBids hourKey localeCompare bids da rt) ->
  (In (HourlyClear.hourStart r) (map Bid.hourStart bids) \/
   In (HourlyClear.hourStart r) (map MarketPrice.datetime_beginning_ept da)) /\
  HourlyClear.daPrice r =
    JS.map_get (HourlyClear.hourStart r) (daPriceMap da) /\
  HourlyClear.avgRtPrice r =
    JS.map_get (HourlyClear.hourStart r)
      (rtPriceMap (averageRTToHourly hourKey localeCompare rt)) /\
  HourlyClear.clearedQty r =
    match HourlyClear.daPrice r with
    | Some p => accumulateCleared (bidsOfHour (HourlyClear.hourStart r) bids) p
    | None => 0%float
    end /\
  HourlyClear.pnl r =
    match HourlyClear.daPrice r, HourlyClear.avgRtPrice r with
    | Some p, Some q =>
        if JS.strict_ne (HourlyClear.clearedQty r) 0%float
        then PrimFloat.mul (HourlyClear.clearedQty r) (PrimFloat.sub q p)
        else 0%float
    | _, _ => 0%float
    end.
Proof.
  intros Hin. apply clearBids_In in Hin. destruct Hin as (h & Hh & ->).
  unfold clearHour. simpl.
  fold (get_or_nil h (groupBids bids)). rewrite groupBids_get.
  repeat split; auto.
Qed.

End EngineFacts.

(** C1: a bid clears exactly by the inclusive limit-order rule against the
    DA price of its hour -- BUY iff [price >= daPrice], SELL iff
    [price <= daPrice], a bid priced at the DA price clears -- and the
    hour's signed [clearedQty] is made of the full quantity of each clearing
    bid, [+qty] for BUY and [-qty] for SELL. *)
Theorem C1_inclusive_limit_order_rule
    (hourKey : string -> string) (localeCompare : string -> string -> Z)
    (bids : list Bid.t) (da rt : list MarketPrice.t)
    (r : HourlyClear.t) (p : JS.number) :
  In r (clearBids hourKey localeCompare bids da rt) ->
  HourlyClear.daPrice r = Some p ->
  (forall b : Bid.t,
      (shouldBidClear b p = true <-> spec_clears b p) /\
      (Bid.side b = BUY ->
       (shouldBidClear b p = true <-> JS.ge (Bid.price b) p = true)) /\
      (Bid.side b = SELL ->
       (shouldBidClear b p = true <-> JS.le (Bid.price b) p = true)) /\
      (JS.strict_eq (Bid.price b) p = true -> shouldBidClear b p = true)) /\
  HourlyClear.clearedQty r =
    fold_left
      (fun acc b =>
         if shouldBidClear b p then PrimFloat.add acc (spec_signedQty b) else acc)
      (bidsOfHour (HourlyClear.hourStart r) bids) 0%float.
Proof.
  intros Hin Hda. split.
  - intros b. split; [apply shouldBidClear_spec |].
    unfold shouldBidClear. split; [| split].
    + intros Hs. rewrite Hs. tauto.
    + intros Hs. rewrite Hs. tauto.
    + intros Heq. apply number_eq_le in Heq. destruct Heq as [Hle Hge].
      destruct (Bid.side b); assumption.
  - apply (clearBids_record hourKey localeCompare) in Hin.
    destruct Hin as (_ & _ & _ & Hq & _).
    rewrite Hq, Hda. apply accumulateCleared_spec.
Qed.

Lemma C1_inclusive_limit_order_rule_witness :
  In clear08
     (clearBids truncateToHour codeCompare mockBids mockDAPrices mockRTPrices) /\
  HourlyClear.daPrice clear08 = Some 55%float /\
  HourlyClear.clearedQty clear08 =
    fold_left
      (fun acc b =>
         if shouldBidClear b 55%float
         then PrimFloat.add acc (spec_signedQty b) else acc)
      (bidsOfHour hour08 mockBids) 0%float.
Proof.
  assert (Hin : In clear08
            (clearBids truncateToHour codeCompare mockBids mockDAPrices
                       mockRTPrices)) by (vm_compute; left; reflexivity).
  assert (Hda : HourlyClear.daPrice clear08 = Some 55%float) by reflexivity.
  split; [exact Hin | split; [exact Hda |]].
  exact (proj2 (C1_inclusive_limit_order_rule truncateToHour codeCompare
                  mockBids mockDAPrices mockRTPrices clear08 55%float Hin Hda)).
Defined.


(** C2: in every output record, [pnl = clearedQty * (avgRtPrice - daPrice)]
    when both prices are present and [clearedQty] is nonzero, and [pnl = 0]
    in every other case. *)
Theorem C2_pnl_formula
    (hourKey : string -> string) (localeCompare : string -> string -> Z)
    (bids : list Bid.t) (da rt : list MarketPrice.t) (r : HourlyClear.t) :
  In r (clearBids hourKey localeCompare bids da rt) ->
  (forall p q : JS.number,
      HourlyClear.daPrice r = Some p ->
      HourlyClear.avgRtPrice r = Some q ->
      JS.strict_ne (HourlyClear.clearedQty r) 0%float = true ->
      HourlyClear.pnl r =
        PrimFloat.mul (HourlyClear.clearedQty r) (PrimFloat.sub q p)) /\
  (HourlyClear.daPrice r = None \/
   HourlyClear.avgRtPrice r = None \/
   JS.strict_eq (HourlyClear.clearedQty r) 0%float = true ->
   HourlyClear.pnl r = 0%float).
Proof.
  intros Hin. apply (clearBids_record hourKey localeCompare) in Hin.
  destruct Hin as (_ & _ & _ & _ & Hpnl). split.
  - intros p q Hp Hq Hnz. now rewrite Hpnl, Hp, Hq, Hnz.
  - intros H. rewrite Hpnl.
    destruct (HourlyClear.daPrice r) as [p|]; auto.
    destruct (HourlyClear.avgRtPrice r) as [q|]; auto.
    destruct H as [H|[H|H]]; try discriminate.
    unfold JS.strict_ne. unfold JS.strict_eq in H. now rewrite H.
Qed.

Lemma C2_pnl_formula_witness :
  In clear08
     (clearBids truncateToHour codeCompare mockBids mockDAPrices mockRTPrices) /\
  HourlyClear.pnl clear08 =
    PrimFloat.mul (HourlyClear.clearedQty clear08) (PrimFloat.sub 60 55).
Proof.
  assert (Hin : In clear08
            (clearBids truncateToHour codeCompare mockBids mockDAPrices
                       mockRTPrices)) by (vm_compute; left; reflexivity).
  split; [exact Hin |].
  exact (proj1 (C2_pnl_formula truncateToHour codeCompare
                  mockBids mockDAPrices mockRTPrices clear08 Hin)
               55%float 60%float eq_refl eq_refl eq_refl).
Defined.


(** C4: the hours of the output are exactly the hours that have a bid or a
    DA price; an hour known only from RT data is not in the output. *)
Theorem C4_output_hours
    (hourKey : string -> string) (localeCompare : string -> string -> Z)
    (bids : list Bid.t) (da rt : list MarketPrice.t) :
  (forall h : string,
      In h (map HourlyClear.hourStart
              (clearBids hourKey localeCompare bids da rt)) <->
      In h (map Bid.hourStart bids) \/
      In h (map MarketPrice.datetime_beginning_ept da)) /\
  (forall h : string,
      In h (map (fun p => hourKey (MarketPrice.datetime_beginning_ept p)) rt) ->
      ~ In h (map Bid.hourStart bids) ->
      ~ In h (map MarketPrice.datetime_beginning_ept da) ->
      ~ In h (map HourlyClear.hourStart
                (clearBids hourKey localeCompare bids da rt))).
Proof.
  assert (forall h : string,
      In h (map HourlyClear.hourStart
              (clearBids hourKey localeCompare bids da rt)) <->
      In h (map Bid.hourStart bids) \/
      In h (map MarketPrice.datetime_beginning_ept da)) as Hiff.
  { intros h. rewrite <- collectHours_In. split; intros H.
    - eapply Permutation_in; [apply clearBids_hours | exact H].
    - eapply Permutation_in; [symmetry; apply clearBids_hours | exact H]. }
  split; [exact Hiff |].
  intros h _ Hb Hd Hin. apply Hiff in Hin. tauto.
Qed.

Lemma C4_output_hours_witness :
  In hour09
     (map (fun p => truncateToHour (MarketPrice.datetime_beginning_ept p))
          mockRTPrices) /\
  ~ In hour09 (map Bid.hourStart [Bid.mk "1" hour08 BUY 60%float 100%float]) /\
  ~ In hour09 (map MarketPrice.datetime_beginning_ept []) /\
  ~ In hour09
      (map HourlyClear.hourStart
           (clearBids truncateToHour codeCompare
              [Bid.mk "1" hour08 BUY 60%float 100%float] [] mockRTPrices)).
Proof.
  assert (Hrt : In hour09
            (map (fun p => truncateToHour (MarketPrice.datetime_beginning_ept p))
                 mockRTPrices)) by (vm_compute; right; left; reflexivity).
  assert (Hb : ~ In hour09
            (map Bid.hourStart [Bid.mk "1" hour08 BUY 60%float 100%float])).
  { simpl. intros [H|[]]. discriminate H. }
  assert (Hd : ~ In hour09 (map MarketPrice.datetime_beginning_ept []))
    by (simpl; tauto).
  split; [exact Hrt | split; [exact Hb | split; [exact Hd |]]].
  exact (proj2 (C4_output_hours truncateToHour codeCompare
                  [Bid.mk "1" hour08 BUY 60%float 100%float] [] mockRTPrices)
               hour09 Hrt Hb Hd).
Defined.


(** C5: an output hour without DA price has [clearedQty = 0] and [pnl = 0]
    whatever its bids; with empty DA and RT arrays every record has both
    prices null and both amounts 0.  The functions are total: nothing is
    raised. *)
Theorem C5_missing_prices
    (hourKey : string -> string) (localeCompare : string -> string -> Z)
    (bids : list Bid.t) (da rt : list MarketPrice.t) (r : HourlyClear.t) :
  (In r (clearBids hourKey localeCompare bids da rt) ->
   HourlyClear.daPrice r = None ->
   HourlyClear.clearedQty r = 0%float /\ HourlyClear.pnl r = 0%float) /\
  (In r (clearBids hourKey localeCompare bids [] []) ->
   HourlyClear.daPrice r = None /\ HourlyClear.avgRtPrice r = None /\
   HourlyClear.clearedQty r = 0%float /\ HourlyClear.pnl r = 0%float).
Proof.
  split.
  - intros Hin Hda. apply (clearBids_record hourKey localeCompare) in Hin.
    destruct Hin as (_ & _ & _ & Hq & Hpnl).
    rewrite Hpnl, Hq, Hda. auto.
  - intros Hin. apply (clearBids_record hourKey localeCompare) in Hin.
    destruct Hin as (_ & Hda & Hrt & Hq & Hpnl). simpl in Hda, Hrt.
    rewrite Hpnl, Hq, Hda, Hrt. auto.
Qed.

Lemma C5_missing_prices_witness :
  In (flat_hour hour08) (clearBids truncateToHour codeCompare mockBids [] []) /\
  HourlyClear.daPrice (flat_hour hour08) = None /\
  HourlyClear.avgRtPrice (flat_hour hour08) = None /\
  HourlyClear.clearedQty (flat_hour hour08) = 0%float /\
  HourlyClear.pnl (flat_hour hour08) = 0%float.
Proof.
  assert (Hin : In (flat_hour hour08)
                   (clearBids truncateToHour codeCompare mockBids [] []))
    by (vm_compute; left; reflexivity).
  split; [exact Hin |].
  exact (proj2 (C5_missing_prices truncateToHour codeCompare
                  mockBids [] [] (flat_hour hour08)) Hin).
Defined.


(** C10: the records returned by [clearBids] have pairwise distinct
    [hourStart], however many bids or DA points share an hour. *)
Theorem C10_distinct_hours
    (hourKey : string -> string) (localeCompare : string -> string -> Z)
    (bids : list Bid.t) (da rt : list MarketPrice.t) :
  NoDup (map HourlyClear.hourStart (clearBids hourKey localeCompare bids da rt)).
Proof.
  eapply Permutation_NoDup.
  - symmetry. apply clearBids_hours.
  - apply collectHours_NoDup.
Qed.

(** ** Summary statistics *)

Lemma fold_add_map {A : Type} (f : A -> JS.number) (l : list A) (z : JS.number) :
  fold_left (fun acc x => PrimFloat.add acc (f x)) l z =
  fold_left PrimFloat.add (map f l) z.
Proof.
  revert z. induction l as [|x l IH]; intros z; simpl; auto.
Qed.

Lemma filter_map_swap {A B : Type} (f : A -> B) (p : B -> bool) (l : list A) :
  filter p (map f l) = map f (filter (fun x => p (f x)) l).
Proof.
  induction l as [|x l IH]; simpl; auto.
  destruct (p (f x)); simpl; now rewrite IH.
Qed.

(** C3: [getClearingSummary] returns the sum of the hourly P&L, the sum of
    the absolute cleared quantities, the sum of the positive ones, the sum
    of the absolute values of the negative ones, the counts of hours with
    nonzero quantity and with nonzero P&L, and the total P&L divided by the
    latter count, or 0 when that count is 0. *)
Theorem C3_summary_aggregates (l : list HourlyClear.t) :
  ClearingSummary.totalPnL (getClearingSummary l) =
    spec_sum (map HourlyClear.pnl l) /\
  ClearingSummary.totalClearedQty (getClearingSummary l) =
    spec_sum (map PrimFloat.abs (map HourlyClear.clearedQty l)) /\
  ClearingSummary.longQty (getClearingSummary l) =
    spec_sum (filter (fun q => JS.gt q 0%float) (map HourlyClear.clearedQty l)) /\
  ClearingSummary.shortQty (getClearingSummary l) =
    spec_sum (map PrimFloat.abs
                (filter (fun q => JS.lt q 0%float)
                        (map HourlyClear.clearedQty l))) /\
  ClearingSummary.hoursWithPositions (getClearingSummary l) =
    spec_count (fun q => JS.strict_ne q 0%float) (map HourlyClear.clearedQty l) /\
  ClearingSummary.hoursWithPnL (getClearingSummary l) =
    spec_count (fun q => JS.strict_ne q 0%float) (map HourlyClear.pnl l) /\
  ClearingSummary.avgPnLPerHour (getClearingSummary l) =
    match ClearingSummary.hoursWithPnL (getClearingSummary l) with
    | O => 0%float
    | S _ =>
        PrimFloat.div
          (ClearingSummary.totalPnL (getClearingSummary l))
          (JS.of_length (ClearingSummary.hoursWithPnL (getClearingSummary l)))
    end.
Proof.
  unfold getClearingSummary, spec_sum, spec_count,
    calculateTotalPnL, calculateTotalClearedQty. simpl.
  repeat split.
  - apply fold_add_map.
  - rewrite map_map. apply fold_add_map.
  - rewrite filter_map_swap. apply fold_add_map.
  - rewrite filter_map_swap, map_map. apply fold_add_map.
  - now rewrite filter_map_swap, length_map.
  - now rewrite filter_map_swap, length_map.
  - destruct (List.length _); reflexivity.
Qed.

(** ** The reference scenario *)

Lemma array_sort_pair {A : Type} (compareFn : A -> A -> Z) (a b : A) :
  (compareFn a b <= 0)%Z -> JS.array_sort compareFn [a; b] = [a; b].
Proof.
  intros H. simpl. apply Z.leb_le in H. now rewrite H.
Qed.

Lemma averageRTToHourly_reference
    (hourKey : string -> string) (localeCompare : string -> string -> Z) :
  hourKey hour08 = hour08 -> hourKey hour09 = hour09 ->
  (localeCompare hour08 hour09 < 0)%Z ->
  averageRTToHourly hourKey localeCompare mockRTPrices =
  [ HourlyAverage.mk hour08 60%float "HB_HOUSTON";
    HourlyAverage.mk hour09 40%float "HB_HOUSTON" ].
Proof.
  intros H8 H9 Hlt.
  unfold averageRTToHourly, groupRt, mockRTPrices.
  cbn [fold_left MarketPrice.datetime_beginning_ept
       MarketPrice.settlement_point_price MarketPrice.settlement_point].
  rewrite H8, H9.
  rewrite <- (array_sort_pair
                (fun a b => localeCompare (HourlyAverage.hourStart a)
                                          (HourlyAverage.hourStart b))
                (HourlyAverage.mk hour08 60%float "HB_HOUSTON")
                (HourlyAverage.mk hour09 40%float "HB_HOUSTON"))
    by (simpl; lia).
  reflexivity.
Qed.

(** C6: on the reference data of the test suite, hour 08:00 clears +50 MWh
    with P&L 250 and hour 09:00 clears +75 MWh with P&L 375; the summary
    shows total P&L 625, long 125, short 0 and two hours with positions. *)
Theorem C6_reference_scenario
    (hourKey : string -> string) (localeCompare : string -> string -> Z) :
  hourKey hour08 = hour08 -> hourKey hour09 = hour09 ->
  (localeCompare hour08 hour09 < 0)%Z ->
  clearBids hourKey localeCompare mockBids mockDAPrices mockRTPrices =
    [clear08; clear09]
  /\
  let summary :=
    getClearingSummary
      (clearBids hourKey localeCompare mockBids mockDAPrices mockRTPrices) in
  ClearingSummary.totalPnL summary = 625%float /\
  ClearingSummary.longQty summary = 125%float /\
  ClearingSummary.shortQty summary = 0%float /\
  ClearingSummary.hoursWithPositions summary = 2%nat.
Proof.
  intros H8 H9 Hlt.
  assert (clearBids hourKey localeCompare mockBids mockDAPrices mockRTPrices =
    [clear08; clear09])
    as Hclear.
  { unfold clearBids.
    rewrite (averageRTToHourly_reference hourKey localeCompare H8 H9 Hlt).
    rewrite <- (array_sort_pair
                  (fun a b => localeCompare (HourlyClear.hourStart a)
                                            (HourlyClear.hourStart b))
                  clear08 clear09)
      by (simpl; lia).
    reflexivity. }
  split; [exact Hclear |].
  rewrite Hclear. repeat split.
Qed.

Lemma C6_reference_scenario_witness :
  truncateToHour hour08 = hour08 /\ truncateToHour hour09 = hour09 /\
  (codeCompare hour08 hour09 < 0)%Z /\
  clearBids truncateToHour codeCompare mockBids mockDAPrices mockRTPrices =
    [clear08; clear09].
Proof.
  assert (H8 : truncateToHour hour08 = hour08) by reflexivity.
  assert (H9 : truncateToHour hour09 = hour09) by reflexivity.
  assert (Hlt : (codeCompare hour08 hour09 < 0)%Z) by reflexivity.
  split; [exact H8 | split; [exact H9 | split; [exact Hlt |]]].
  exact (proj1 (C6_reference_scenario truncateToHour codeCompare H8 H9 Hlt)).
Defined.

(* ================================================================= *)
(** ** The order-entry cutoff *)

Module CutoffFacts.
Import Luxon Cutoff.
Local Open Scope Z_scope.


(** When the runtime's zone is the market zone, or lies west of it by less
    than a day, the computed cutoff is 11:00 market time on the trading
    date. *)
Lemma getCutoffTime_local_not_east (localZone marketZone : Z) (d : CalendarDate) :
  localZone <= marketZone < localZone + 1440 ->
  ts (getCutoffTime localZone marketZone d) = spec_cutoffInstant marketZone d.
Proof.
  intros H.
  unfold getCutoffTime, spec_cutoffInstant, set_time, setZone, fromISO,
    localDay, localMillis, CUTOFF_HOUR, CUTOFF_MINUTE,
    MS_PER_DAY, MS_PER_HOUR, MS_PER_MINUTE. simpl ts. simpl offset.
  replace (days_from_civil d * 86400000 - localZone * 60000 + marketZone * 60000)
    with ((marketZone - localZone) * 60000 + days_from_civil d * 86400000) by ring.
  rewrite Z.div_add by lia.
  rewrite (Z.div_small ((marketZone - localZone) * 60000) 86400000) by lia.
  lia.
Qed.

(** When the runtime's zone lies east of the market zone, the local
    midnight of the trading date falls on the previous day in market time,
    and the computed cutoff is a full day early. *)
Lemma getCutoffTime_local_east (localZone marketZone : Z) (d : CalendarDate) :
  marketZone < localZone <= marketZone + 1440 ->
  ts (getCutoffTime localZone marketZone d) =
  spec_cutoffInstant marketZone d - MS_PER_DAY.
Proof.
  intros H.
  unfold getCutoffTime, spec_cutoffInstant, set_time, setZone, fromISO,
    localDay, localMillis, CUTOFF_HOUR, CUTOFF_MINUTE,
    MS_PER_DAY, MS_PER_HOUR, MS_PER_MINUTE. simpl ts. simpl offset.
  replace (days_from_civil d * 86400000 - localZone * 60000 + marketZone * 60000)
    with ((marketZone - localZone + 1440) * 60000
          + (days_from_civil d - 1) * 86400000) by ring.
  rewrite Z.div_add by lia.
  rewrite (Z.div_small ((marketZone - localZone + 1440) * 60000) 86400000) by lia.
  lia.
Qed.

(** C7: on a runtime whose local zone is UTC, the cutoff computed for the
    trading date 2024-01-01 is 11:00 Chicago time of 2023-12-31, one day
    before the 11:00 of the trading date; at 06:00 Chicago time on the
    trading date, five hours before that cutoff, the status already reports
    the cutoff as passed. *)
Theorem C7_cutoff_a_day_early_on_utc_runtime :
  ts (getCutoffTime 0 (-360) newYear2024) =
    spec_cutoffInstant (-360) (mkDate 2023 12 31) /\
  ts (getCutoffTime 0 (-360) newYear2024) <>
    spec_cutoffInstant (-360) newYear2024 /\
  sixAmChicago < spec_cutoffInstant (-360) newYear2024 /\
  isCutoffPassed (getCutoffStatus 0 (-360) sixAmChicago newYear2024) = true /\
  isCutoffPassed (getCutoffStatus (-360) (-360) sixAmChicago newYear2024) = false.
Proof.
  repeat split; try reflexivity. vm_compute. discriminate.
Qed.

End CutoffFacts.

(* ================================================================= *)
(** ** The bid store *)

Module StoreFacts.
Import Store.

Lemma filter_length_le {A : Type} (p : A -> bool) (l : list A) :
  List.length (filter p l) <= List.length l.
Proof.
  induction l as [|x l IH]; simpl; auto.
  destruct (p x); simpl; lia.
Qed.

Lemma filter_filter_length {A : Type} (p q : A -> bool) (l : list A) :
  List.length (filter p (filter q l)) <= List.length (filter p l).
Proof.
  induction l as [|x l IH]; simpl; auto.
  destruct (q x); simpl; destruct (p x); simpl; lia.
Qed.

Lemma addBid_rejects (uuid : string) (bidData : BidData) (state : AppState) :
  10 <= bidsInHour (hourStart bidData) state ->
  addBid uuid bidData state =
  mkState (marketSelection state) (bids state) (marketData state)
          (hourlyClears state) (isLoading state)
          (Some "Maximum 10 bids per hour allowed").
Proof.
  unfold bidsInHour, getBidsForHour, addBid. cbn [Bid.hourStart]. intros H.
  apply Nat.leb_le in H. now rewrite H.
Qed.

Lemma addBid_capped (uuid : string) (bidData : BidData) (state : AppState) :
  capped state -> capped (addBid uuid bidData state).
Proof.
  intros Hc hour. unfold addBid. cbn [Bid.hourStart].
  destruct (Nat.leb 10 _) eqn:E.
  - apply Hc.
  - apply Nat.leb_gt in E.
    unfold bidsInHour, getBidsForHour. simpl.
    rewrite filter_app, length_app. simpl.
    destruct (String.eqb (hourStart bidData) hour) eqn:Eh; simpl.
    + apply String.eqb_eq in Eh. subst hour. lia.
    + specialize (Hc hour). unfold bidsInHour, getBidsForHour in Hc. lia.
Qed.

Lemma dispatch_capped (a : Action) (state : AppState) :
  capped state -> capped (dispatch a state).
Proof.
  intros Hc. destruct a; simpl; try exact Hc.
  - now apply addBid_capped.
  - intros hour. unfold bidsInHour, getBidsForHour, removeBid. simpl.
    etransitivity; [apply filter_filter_length | apply Hc].
  - intros hour. unfold bidsInHour, getBidsForHour. simpl. lia.
  - intros hour. unfold bidsInHour, getBidsForHour. simpl. lia.
Qed.

Lemma reachable_capped (state : AppState) : reachable state -> capped state.
Proof.
  induction 1 as [|a state _ IH].
  - intros hour. unfold bidsInHour, getBidsForHour. simpl. lia.
  - now apply dispatch_capped.
Qed.

Lemma reachable_run (actions : list Action) (state : AppState) :
  reachable state -> reachable (run actions state).
Proof.
  revert state. induction actions as [|a actions IH]; intros state H; simpl; auto.
  apply IH. now constructor.
Qed.

(** C9: in every state the store's actions can reach, no hour holds more
    than 10 bids; [addBid] on an hour that already holds 10 leaves the bid
    list as it is and sets the error message. *)
Theorem C9_at_most_ten_bids_per_hour (state : AppState) :
  reachable state ->
  (forall hour, bidsInHour hour state <= 10) /\
  (forall uuid bidData,
      bidsInHour (hourStart bidData) state = 10 ->
      bids (addBid uuid bidData state) = bids state /\
      error (addBid uuid bidData state) =
        Some "Maximum 10 bids per hour allowed").
Proof.
  intros Hr. split.
  - now apply reachable_capped.
  - intros uuid bidData H10.
    rewrite addBid_rejects by lia. simpl. auto.
Qed.

Lemma C9_at_most_ten_bids_per_hour_witness :
  reachable fullHourState /\
  bidsInHour (hourStart sampleBid) fullHourState = 10 /\
  bids (addBid "u10" sampleBid fullHourState) = bids fullHourState /\
  error (addBid "u10" sampleBid fullHourState) =
    Some "Maximum 10 bids per hour allowed".
Proof.
  assert (Hr : reachable fullHourState)
    by (apply reachable_run; constructor).
  assert (H10 : bidsInHour (hourStart sampleBid) fullHourState = 10)
    by reflexivity.
  split; [exact Hr | split; [exact H10 |]].
  exact (proj2 (C9_at_most_ten_bids_per_hour fullHourState Hr)
               "u10" sampleBid H10).
Defined.

End StoreFacts.

(* ================================================================= *)
(** ** Hourly averaging and the order of the samples *)

Lemma NoDup_map_injective_on {A B : Type} (f : A -> B) (l : list A) (a b : A) :
  NoDup (map f l) -> In a l -> In b l -> f a = f b -> a = b.
Proof.
  induction l as [|x l IH]; simpl; intros Hnd Ha Hb Hf; [tauto |].
  inversion Hnd as [|? ? Hx Hl]; subst.
  destruct Ha as [->|Ha], Hb as [->|Hb]; auto.
  - exfalso. apply Hx. rewrite Hf. now apply in_map.
  - exfalso. apply Hx. rewrite <- Hf. now apply in_map.
Qed.

Section SortCanonical.
Context {A : Type} (key : A -> string).
Variable localeCompare : string -> string -> Z.
Variable dom : string -> Prop.
Hypothesis consistent : consistentComparatorOn dom localeCompare.

Lemma sort_insert_sorted (x : A) (l : list A) :
  dom (key x) -> Forall (fun y => dom (key y)) l ->
  StronglySorted (keyOrder key localeCompare) l ->
  StronglySorted (keyOrder key localeCompare)
    (JS.sort_insert (fun a b => localeCompare (key a) (key b)) x l).
Proof.
  destruct consistent as (Htotal & Htrans & _).
  intros Hx Hdom Hs. induction Hs as [|y l Hs IH Hy]; simpl.
  - repeat constructor.
  - inversion Hdom as [|? ? Hdy Hdl]; subst.
    rewrite Forall_forall in Hdl.
    destruct (localeCompare (key x) (key y) <=? 0)%Z eqn:E.
    + apply Z.leb_le in E. constructor; [now constructor |].
      constructor; [exact E |].
      rewrite Forall_forall in Hy. apply Forall_forall. intros z Hz.
      unfold keyOrder in *. apply (Htrans _ (key y)); auto.
    + apply Z.leb_gt in E. constructor.
      * apply IH. now apply Forall_forall.
      * apply Forall_forall. intros z Hz.
        apply (Permutation_in _ (sort_insert_perm _ x l)) in Hz.
        destruct Hz as [<-|Hz].
        -- unfold keyOrder.
           destruct (Htotal (key y) (key x) Hdy Hx); [assumption | lia].
        -- rewrite Forall_forall in Hy. now apply Hy.
Qed.

Lemma array_sort_sorted (l : list A) :
  Forall (fun y => dom (key y)) l ->
  StronglySorted (keyOrder key localeCompare)
    (JS.array_sort (fun a b => localeCompare (key a) (key b)) l).
Proof.
  induction l as [|x l IH]; simpl; intros Hdom; [constructor |].
  inversion Hdom as [|? ? Hx Hl]; subst.
  apply sort_insert_sorted; auto.
  apply Forall_forall. intros y Hy. apply array_sort_In in Hy.
  rewrite Forall_forall in Hl. now apply Hl.
Qed.

(** Two sorted arrangements of the same records, no two with the same key,
    are the same list. *)
Lemma sorted_unique (l l' : list A) :
  Forall (fun y => dom (key y)) l ->
  StronglySorted (keyOrder key localeCompare) l ->
  StronglySorted (keyOrder key localeCompare) l' ->
  Permutation l l' -> NoDup (map key l) -> l = l'.
Proof.
  destruct consistent as (_ & _ & Hanti).
  intros Hdom Hs. revert l'.
  induction Hs as [|a t Hs IH Ha]; intros l' Hs' Hp Hnd.
  - now apply Permutation_nil in Hp.
  - destruct Hs' as [|b t' Hs' Hb].
    + symmetry in Hp. apply Permutation_nil in Hp. discriminate.
    + assert (In b (a :: t)) as Hin2
        by (eapply Permutation_in; [symmetry; exact Hp | now left]).
      assert (a = b) as Hab.
      { assert (In a (b :: t')) as Hin1
          by (eapply Permutation_in; [exact Hp | now left]).
        destruct Hin1 as [->|Hin1]; auto.
        destruct Hin2 as [->|Hin2]; auto.
        rewrite Forall_forall in Ha, Hb, Hdom.
        apply (NoDup_map_injective_on key (a :: t)); auto.
        * now left.
        * now right.
        * apply Hanti; [apply Hdom; now left | apply Hdom; now right
                        | apply (Ha _ Hin2) | apply (Hb _ Hin1)]. }
      subst b. f_equal. apply IH; auto.
      * now inversion Hdom.
      * eapply Permutation_cons_inv; eauto.
      * simpl in Hnd. now inversion Hnd.
Qed.

(** Sorting by a consistent comparator forgets the order of the input when
    the keys are distinct. *)
Lemma array_sort_canonical (l l' : list A) :
  Forall (fun y => dom (key y)) l ->
  Permutation l l' -> NoDup (map key l) ->
  JS.array_sort (fun a b => localeCompare (key a) (key b)) l =
  JS.array_sort (fun a b => localeCompare (key a) (key b)) l'.
Proof.
  intros Hdom Hp Hnd.
  assert (forall s, Permutation l s -> Forall (fun y => dom (key y)) s) as Hd.
  { intros s Hs. apply Forall_forall. intros y Hy.
    rewrite Forall_forall in Hdom. apply Hdom.
    eapply Permutation_in; [symmetry; exact Hs | exact Hy]. }
  apply sorted_unique.
  - apply Hd. symmetry. apply array_sort_perm.
  - now apply array_sort_sorted.
  - apply array_sort_sorted. now apply Hd.
  - rewrite !array_sort_perm. exact Hp.
  - eapply Permutation_NoDup; [| exact Hnd].
    apply Permutation_map. symmetry. apply array_sort_perm.
Qed.
End SortCanonical.

Lemma array_sort_map {A B : Type} (f : A -> B)
    (cmpA : A -> A -> Z) (cmpB : B -> B -> Z) (l : list A) :
  (forall a b, cmpB (f a) (f b) = cmpA a b) ->
  map f (JS.array_sort cmpA l) = JS.array_sort cmpB (map f l).
Proof.
  intros Hc. induction l as [|x l IH]; simpl; auto.
  rewrite <- IH. generalize (JS.array_sort cmpA l). intros s.
  induction s as [|y s IHs]; simpl; auto.
  rewrite Hc. destruct (cmpA x y <=? 0)%Z; simpl; auto.
  now rewrite IHs.
Qed.

Section MapEntries.
Context {V : Type}.

Lemma map_In_get (m : JS.Map V) (k : string) (v : V) :
  NoDup (JS.map_keys m) -> (In (k, v) m <-> JS.map_get k m = Some v).
Proof.
  induction m as [|[k' v'] m IH]; simpl; intros Hnd.
  - split; [tauto | discriminate].
  - inversion Hnd as [|? ? Hk Hm]; subst.
    destruct (String.eqb k' k) eqn:E.
    + apply String.eqb_eq in E. subst k'. split.
      * intros [H|H]; [congruence |].
        exfalso. apply Hk. change k with (fst (k, v)). now apply in_map.
      * intros H. left. congruence.
    + apply String.eqb_neq in E. rewrite <- (IH Hm). split.
      * intros [H|H]; [congruence | exact H].
      * auto.
Qed.

(** Maps with the same content hold the same entries, possibly in another
    insertion order. *)
Lemma map_same_content_perm (g g' : JS.Map V) :
  NoDup (JS.map_keys g) -> NoDup (JS.map_keys g') ->
  (forall h, JS.map_get h g = JS.map_get h g') -> Permutation g g'.
Proof.
  intros Hg Hg' Hget. apply NoDup_Permutation.
  - eapply NoDup_map_inv. exact Hg.
  - eapply NoDup_map_inv. exact Hg'.
  - intros [k v]. rewrite !map_In_get by assumption. now rewrite Hget.
Qed.
End MapEntries.

Section AveragingFacts.
Variable hourKey : string -> string.
Variable localeCompare : string -> string -> Z.

Lemma groupRt_grouped (rt : list MarketPrice.t) :
  groupRt hourKey rt =
  grouped (fun p => hourKey (MarketPrice.datetime_beginning_ept p)) pointOf rt [].
Proof. reflexivity. Qed.

Lemma groupRt_keys_NoDup (rt : list MarketPrice.t) :
  NoDup (JS.map_keys (groupRt hourKey rt)).
Proof.
  rewrite groupRt_grouped. apply grouped_keys_NoDup. constructor.
Qed.

Lemma groupRt_keys_In (h : string) (rt : list MarketPrice.t) :
  In h (JS.map_keys (groupRt hourKey rt)) <->
  In h (map (fun p => hourKey (MarketPrice.datetime_beginning_ept p)) rt).
Proof.
  rewrite groupRt_grouped, grouped_keys_In. simpl. tauto.
Qed.

(** The group of an hour holds that hour's samples in input order; hours
    without sample have no group. *)
Lemma groupRt_get (h : string) (rt : list MarketPrice.t) :
  JS.map_get h (groupRt hourKey rt) =
  match samplesOfHour hourKey h rt with
  | [] => None
  | ps => Some (map pointOf ps)
  end.
Proof.
  destruct (in_dec string_dec h (JS.map_keys (groupRt hourKey rt))) as [Hin|Hout].
  - rewrite groupRt_grouped in *.
    destruct (grouped_nonempty _ pointOf h rt Hin) as [Hget Hne].
    rewrite Hget. unfold samplesOfHour.
    destruct (filter _ rt); [contradiction | reflexivity].
  - assert (JS.map_get h (groupRt hourKey rt) = None) as ->
      by now apply map_get_None_keys.
    destruct (samplesOfHour hourKey h rt) as [|x xs] eqn:E; auto.
    exfalso. apply Hout, groupRt_keys_In.
    assert (In x (samplesOfHour hourKey h rt)) as Hx by (rewrite E; now left).
    apply filter_In in Hx. destruct Hx as [Hx Hk].
    apply String.eqb_eq in Hk. subst h.
    now apply (in_map (fun p => hourKey (MarketPrice.datetime_beginning_ept p))).
Qed.

Lemma averages_hours_in_keys (g : JS.Map (list RtPoint.t)) (h : string) :
  In h (map HourlyAverage.hourStart (flat_map averageGroup g)) ->
  In h (JS.map_keys g).
Proof.
  induction g as [|[k pts] g IH]; simpl; auto.
  rewrite map_app, in_app_iff. intros [H|H]; auto.
  left. destruct pts; simpl in H; [tauto | destruct H as [H|[]]; auto].
Qed.

Lemma averages_hours_NoDup (g : JS.Map (list RtPoint.t)) :
  NoDup (JS.map_keys g) ->
  NoDup (map HourlyAverage.hourStart (flat_map averageGroup g)).
Proof.
  induction g as [|[k pts] g IH]; simpl; intros Hnd; [constructor |].
  inversion Hnd as [|? ? Hk Hg]; subst.
  rewrite map_app. destruct pts; simpl; auto.
  constructor; auto.
  intros Hin. now apply Hk, averages_hours_in_keys.
Qed.

Lemma averages_projection (g : JS.Map (list RtPoint.t)) (sp0 : string) :
  (forall h pts, In (h, pts) g ->
     exists p ps, pts = p :: ps /\ RtPoint.settlement_point p = sp0) ->
  map hourAndPoint (flat_map averageGroup g) =
  map (fun h => (h, sp0)) (JS.map_keys g).
Proof.
  induction g as [|[k pts] g IH]; simpl; intros H; auto.
  destruct (H k pts (or_introl eq_refl)) as (p & ps & -> & Hsp).
  simpl. unfold hourAndPoint at 1. simpl. rewrite Hsp. f_equal.
  apply IH. intros h pts Hin. apply (H h pts). now right.
Qed.

Lemma groupRt_entries (rt : list MarketPrice.t) (sp0 : string) :
  (forall p, In p rt -> MarketPrice.settlement_point p = sp0) ->
  forall h pts, In (h, pts) (groupRt hourKey rt) ->
    exists p ps, pts = p :: ps /\ RtPoint.settlement_point p = sp0.
Proof.
  intros Hsp h pts Hin.
  apply map_In_get in Hin; [| apply groupRt_keys_NoDup].
  rewrite groupRt_get in Hin.
  destruct (samplesOfHour hourKey h rt) as [|x xs] eqn:E; [discriminate |].
  injection Hin as <-. simpl. eexists; eexists; split; [reflexivity |].
  simpl. apply Hsp.
  assert (In x (samplesOfHour hourKey h rt)) as Hx by (rewrite E; now left).
  apply filter_In in Hx. tauto.
Qed.

(** Shuffles that keep each hour's samples in their order do not change
    the result. *)
Lemma averageRTToHourly_same_groups (l l' : list MarketPrice.t) :
  consistentComparatorOn (fun h => In h (hourKeysOf hourKey l)) localeCompare ->
  (forall h, samplesOfHour hourKey h l' = samplesOfHour hourKey h l) ->
  averageRTToHourly hourKey localeCompare l' =
  averageRTToHourly hourKey localeCompare l.
Proof.
  intros consistent Hsame. unfold averageRTToHourly. symmetry.
  apply (array_sort_canonical HourlyAverage.hourStart localeCompare _ consistent).
  - apply Forall_forall. intros r Hr.
    apply groupRt_keys_In, averages_hours_in_keys. now apply in_map.
  - apply Permutation_flat_map. apply map_same_content_perm.
    + apply groupRt_keys_NoDup.
    + apply groupRt_keys_NoDup.
    + intros h. now rewrite !groupRt_get, Hsame.
  - apply averages_hours_NoDup, groupRt_keys_NoDup.
Qed.

(** Any shuffle keeps the hours, their order and the settlement point. *)
Lemma averageRTToHourly_projection (l l' : list MarketPrice.t) (sp0 : string) :
  consistentComparatorOn (fun h => In h (hourKeysOf hourKey l)) localeCompare ->
  Permutation l l' ->
  (forall p, In p l -> MarketPrice.settlement_point p = sp0) ->
  map hourAndPoint (averageRTToHourly hourKey localeCompare l') =
  map hourAndPoint (averageRTToHourly hourKey localeCompare l).
Proof.
  intros consistent Hp Hsp. unfold averageRTToHourly.
  rewrite !(array_sort_map hourAndPoint _
              (fun a b : string * string => localeCompare (fst a) (fst b)))
    by reflexivity.
  rewrite !(averages_projection _ sp0).
  - symmetry.
    apply (array_sort_canonical fst localeCompare _ consistent).
    + apply Forall_forall. intros [h sp] Hin. simpl.
      apply in_map_iff in Hin. destruct Hin as (h' & Heq & Hin).
      injection Heq as -> _. now apply groupRt_keys_In.
    + apply Permutation_map. apply NoDup_Permutation.
      * apply groupRt_keys_NoDup.
      * apply groupRt_keys_NoDup.
      * intros h. rewrite !groupRt_keys_In. split; apply Permutation_in.
        -- now apply Permutation_map.
        -- apply Permutation_map. now symmetry.
    + rewrite map_map. simpl. rewrite map_id. apply groupRt_keys_NoDup.
  - now apply groupRt_entries.
  - apply groupRt_entries. intros p Hin. apply Hsp.
    eapply Permutation_in; [symmetry; exact Hp | exact Hin].
Qed.

End AveragingFacts.

(** Comparison by character codes is a total order on all strings. *)
Lemma codeCompare_consistent (dom : string -> Prop) :
  consistentComparatorOn dom codeCompare.
Proof.
  unfold consistentComparatorOn, codeCompare. repeat split.
  - intros a b _ _. rewrite (String.compare_antisym a b).
    destruct (String.compare b a); simpl; lia.
  - intros a b c _ _ _.
    destruct (String.compare a b) eqn:Eab; try lia;
      destruct (String.compare b c) eqn:Ebc; try lia; intros _ _.
    + apply String.compare_eq_iff in Eab. subst b. rewrite Ebc. lia.
    + apply String.compare_eq_iff in Eab. subst b. rewrite Ebc. lia.
    + apply String.compare_eq_iff in Ebc. subst c. rewrite Eab. lia.
    + apply String_as_OT.cmp_lt in Eab, Ebc.
      pose proof (String_as_OT.lt_trans _ _ _ Eab Ebc) as Hac.
      apply String_as_OT.cmp_lt in Hac. unfold String_as_OT.cmp in Hac.
      rewrite Hac. lia.
  - intros a b _ _. rewrite (String.compare_antisym b a).
    destruct (String.compare a b) eqn:Eab; simpl; try lia.
    intros _ _. now apply String.compare_eq_iff.
Qed.

(** C8, as the code has it: for samples of one settlement point and a
    comparator that orders their hour keys, any shuffle of the input gives
    the same hours with the same settlement point, and both results are in
    ascending order of [hourStart]; the whole output, averages included, is
    the same whenever the shuffle keeps the samples of each clock hour in
    their relative order.  (The mean is a floating-point sum taken in input
    order.) *)
Theorem C8_shuffle_keeps_hours_and_ordered_means
    (hourKey : string -> string) (localeCompare : string -> string -> Z)
    (rtData shuffled : list MarketPrice.t) :
  consistentComparatorOn (fun h => In h (hourKeysOf hourKey rtData))
                         localeCompare ->
  sameSettlementPoint rtData ->
  Permutation rtData shuffled ->
  map HourlyAverage.hourStart (averageRTToHourly hourKey localeCompare shuffled) =
  map HourlyAverage.hourStart (averageRTToHourly hourKey localeCompare rtData) /\
  map HourlyAverage.settlement_point
      (averageRTToHourly hourKey localeCompare shuffled) =
  map HourlyAverage.settlement_point
      (averageRTToHourly hourKey localeCompare rtData) /\
  StronglySorted (keyOrder HourlyAverage.hourStart localeCompare)
    (averageRTToHourly hourKey localeCompare shuffled) /\
  StronglySorted (keyOrder HourlyAverage.hourStart localeCompare)
    (averageRTToHourly hourKey localeCompare rtData) /\
  ((forall h, samplesOfHour hourKey h shuffled = samplesOfHour hourKey h rtData) ->
   averageRTToHourly hourKey localeCompare shuffled =
   averageRTToHourly hourKey localeCompare rtData).
Proof.
  intros Hc Hsp Hp.
  assert (forall l, Permutation rtData l ->
            StronglySorted (keyOrder HourlyAverage.hourStart localeCompare)
              (averageRTToHourly hourKey localeCompare l)) as Hsorted.
  { intros l Hl. unfold averageRTToHourly.
    apply (array_sort_sorted HourlyAverage.hourStart localeCompare _ Hc).
    apply Forall_forall. intros a Ha.
    apply (Permutation_in _
             (Permutation_sym
                (Permutation_map
                   (fun p => hourKey (MarketPrice.datetime_beginning_ept p)) Hl))).
    apply (groupRt_keys_In hourKey localeCompare).
    apply (averages_hours_in_keys hourKey localeCompare). now apply in_map. }
  assert (map hourAndPoint (averageRTToHourly hourKey localeCompare shuffled) =
          map hourAndPoint (averageRTToHourly hourKey localeCompare rtData))
    as Hproj.
  { destruct rtData as [|p0 rest].
    - apply Permutation_nil in Hp. now subst.
    - apply (averageRTToHourly_projection hourKey localeCompare _ _
               (MarketPrice.settlement_point p0)); auto.
      intros p Hin. apply Hsp; [exact Hin | now left]. }
  split; [| split; [| split; [| split]]].
  - apply (f_equal (map fst)) in Hproj. now rewrite !map_map in Hproj.
  - apply (f_equal (map snd)) in Hproj. now rewrite !map_map in Hproj.
  - now apply Hsorted.
  - apply Hsorted. apply Permutation_refl.
  - now apply averageRTToHourly_same_groups.
Qed.

Lemma C8_shuffle_keeps_hours_and_ordered_means_witness :
  consistentComparatorOn
    (fun h => In h (hourKeysOf truncateToHour samples_mixed)) codeCompare /\
  sameSettlementPoint samples_mixed /\
  Permutation samples_mixed samples_mixed_shuffled /\
  averageRTToHourly truncateToHour codeCompare samples_mixed_shuffled =
  averageRTToHourly truncateToHour codeCompare samples_mixed.
Proof.
  assert (Hsp : sameSettlementPoint samples_mixed).
  { assert (forall p, In p samples_mixed ->
                      MarketPrice.settlement_point p = "HB_HOUSTON") as H.
    { intros p [<-|[<-|[<-|[]]]]; reflexivity. }
    intros p q Hp Hq. now rewrite (H p Hp), (H q Hq). }
  assert (Hp : Permutation samples_mixed samples_mixed_shuffled)
    by apply perm_swap.
  assert (Hsame : forall h,
             samplesOfHour truncateToHour h samples_mixed_shuffled =
             samplesOfHour truncateToHour h samples_mixed).
  { intros h. unfold samplesOfHour, samples_mixed_shuffled, samples_mixed.
    cbn [filter].
    change (truncateToHour
              (MarketPrice.datetime_beginning_ept (rtSample "00" price_a)))
      with hour08.
    change (truncateToHour
              (MarketPrice.datetime_beginning_ept (rtSample "05" price_b)))
      with hour08.
    change (truncateToHour
              (MarketPrice.datetime_beginning_ept
                 (MarketPrice.mk hour09 "2024-01-01T15:00:00.000Z"
                                 "HB_HOUSTON" 40%float)))
      with hour09.
    destruct (String.eqb_spec hour09 h) as [<-|_].
    - reflexivity.
    - destruct (String.eqb hour08 h); reflexivity. }
  split; [apply codeCompare_consistent | split; [exact Hsp | split; [exact Hp |]]].
  exact (proj2 (proj2 (proj2 (proj2
           (C8_shuffle_keeps_hours_and_ordered_means
              truncateToHour codeCompare samples_mixed
              samples_mixed_shuffled (codeCompare_consistent _)
              Hsp Hp))))
           Hsame).
Defined.

(** C8 as stated does not hold: the three samples 0.1, 0.2, 0.3 of hour
    08:00 average to 0.20000000000000004 in that order and to
    0.19999999999999998 in the reverse order. *)
Lemma C8_order_invariance_fails : ~ order_invariant truncateToHour codeCompare.
Proof.
  intros Hinv.
  assert (Hsp : sameSettlementPoint samples_abc).
  { assert (forall p, In p samples_abc ->
                      MarketPrice.settlement_point p = "HB_HOUSTON") as H.
    { intros p [<-|[<-|[<-|[]]]]; reflexivity. }
    intros p q Hp Hq. now rewrite (H p Hp), (H q Hq). }
  assert (Hp : Permutation samples_abc samples_cba).
  { unfold samples_abc, samples_cba.
    apply Permutation_rev. }
  specialize (Hinv samples_abc samples_cba Hsp Hp).
  apply (f_equal (fun l =>
           match l with
           | [r] => PrimFloat.eqb (HourlyAverage.avgPrice r)
                      (PrimFloat.div (PrimFloat.add (PrimFloat.add price_c price_b)
                                                    price_a) 3)
           | _ => false
           end)) in Hinv.
  vm_compute in Hinv. discriminate Hinv.
Qed.

(* ================================================================= *)
(** ** Further properties of hourly averaging *)

Lemma averageGroup_In (g : JS.Map (list RtPoint.t)) (a : HourlyAverage.t) :
  In a (flat_map averageGroup g) <->
  exists p0 rest,
    In (HourlyAverage.hourStart a, p0 :: rest) g /\
    a = HourlyAverage.mk (HourlyAverage.hourStart a)
          (PrimFloat.div (sumPrices (p0 :: rest))
                         (JS.of_length (List.length (p0 :: rest))))
          (RtPoint.settlement_point p0).
Proof.
  rewrite in_flat_map. split.
  - intros ([k pts] & Hin & Ha). destruct pts as [|p0 rest]; simpl in Ha.
    + destruct Ha.
    + destruct Ha as [<-|[]]. simpl. exists p0, rest. auto.
  - intros (p0 & rest & Hin & Ha).
    exists (HourlyAverage.hourStart a, p0 :: rest). split; auto.
    unfold averageGroup. left. symmetry. exact Ha.
Qed.

Lemma hourAverage_hourStart (hourKey : string -> string) (h : string)
    (rt : list MarketPrice.t) (a : HourlyAverage.t) :
  hourAverage hourKey h rt = Some a -> HourlyAverage.hourStart a = h.
Proof.
  unfold hourAverage. destruct (map pointOf _); [discriminate |].
  intros H. injection H as <-. reflexivity.
Qed.

Lemma samplesOfHour_nonempty (hourKey : string -> string) (h : string)
    (rt : list MarketPrice.t) :
  samplesOfHour hourKey h rt <> [] <-> In h (hourKeysOf hourKey rt).
Proof.
  unfold samplesOfHour, hourKeysOf. split.
  - destruct (filter _ rt) as [|x xs] eqn:E; [congruence |]. intros _.
    assert (In x (filter
              (fun p => String.eqb (hourKey (MarketPrice.datetime_beginning_ept p)) h)
              rt)) as Hx by (rewrite E; now left).
    apply filter_In in Hx. destruct Hx as [Hx Hk].
    apply String.eqb_eq in Hk. subst h.
    now apply (in_map (fun p => hourKey (MarketPrice.datetime_beginning_ept p))).
  - intros Hin Hnil. apply in_map_iff in Hin. destruct Hin as (x & Hk & Hx).
    assert (In x (filter
              (fun p => String.eqb (hourKey (MarketPrice.datetime_beginning_ept p)) h)
              rt)) as Hf.
    { apply filter_In. split; auto. now apply String.eqb_eq. }
    rewrite Hnil in Hf. destruct Hf.
Qed.

Lemma averageRTToHourly_In
    (hourKey : string -> string) (localeCompare : string -> string -> Z)
    (rt : list MarketPrice.t) (a : HourlyAverage.t) :
  In a (averageRTToHourly hourKey localeCompare rt) <->
  hourAverage hourKey (HourlyAverage.hourStart a) rt = Some a.
Proof.
  unfold averageRTToHourly. rewrite array_sort_In, averageGroup_In.
  unfold hourAverage. split.
  - intros (p0 & rest & Hin & Ha).
    apply map_In_get in Hin; [| apply groupRt_keys_NoDup].
    rewrite (groupRt_get hourKey localeCompare) in Hin.
    destruct (samplesOfHour hourKey (HourlyAverage.hourStart a) rt) as [|x xs];
      [discriminate |].
    injection Hin as Hp0 Hrest. simpl map. rewrite Hp0, Hrest.
    now rewrite <- Ha.
  - destruct (map pointOf (samplesOfHour hourKey (HourlyAverage.hourStart a) rt))
      as [|p0 rest] eqn:E; [discriminate |].
    intros H. injection H as H. exists p0, rest. split; [| now symmetry].
    apply map_In_get; [apply groupRt_keys_NoDup |].
    rewrite (groupRt_get hourKey localeCompare).
    destruct (samplesOfHour hourKey (HourlyAverage.hourStart a) rt) as [|x xs];
      [discriminate |].
    now rewrite E.
Qed.

Lemma averageRTToHourly_hours_In
    (hourKey : string -> string) (localeCompare : string -> string -> Z)
    (rt : list MarketPrice.t) (h : string) :
  In h (map HourlyAverage.hourStart
          (averageRTToHourly hourKey localeCompare rt)) <->
  In h (hourKeysOf hourKey rt).
Proof.
  rewrite <- samplesOfHour_nonempty, in_map_iff. split.
  - intros (a & Hh & Ha). apply averageRTToHourly_In in Ha.
    rewrite Hh in Ha. unfold hourAverage in Ha.
    intros Hnil. rewrite Hnil in Ha. discriminate.
  - intros Hne.
    destruct (hourAverage hourKey h rt) as [a|] eqn:E.
    + pose proof (hourAverage_hourStart _ _ _ _ E) as Hh.
      exists a. split; auto. apply averageRTToHourly_In. now rewrite Hh.
    + unfold hourAverage in E.
      destruct (samplesOfHour hourKey h rt); [congruence | discriminate].
Qed.

Lemma averageRTToHourly_hours_NoDup
    (hourKey : string -> string) (localeCompare : string -> string -> Z)
    (rt : list MarketPrice.t) :
  NoDup (map HourlyAverage.hourStart
           (averageRTToHourly hourKey localeCompare rt)).
Proof.
  unfold averageRTToHourly. eapply Permutation_NoDup.
  - apply Permutation_map. symmetry. apply array_sort_perm.
  - apply (averages_hours_NoDup hourKey localeCompare), groupRt_keys_NoDup.
Qed.

(** X1: [averageRTToHourly] produces one record per clock hour that has a
    sample and none for any other hour: the output hours are exactly the
    hour keys of the input, without repetition, so there are never more
    records than samples. *)
Theorem X1_averageRTToHourly_hours
    (hourKey : string -> string) (localeCompare : string -> string -> Z)
    (rt : list MarketPrice.t) :
  (forall h,
      In h (map HourlyAverage.hourStart
              (averageRTToHourly hourKey localeCompare rt)) <->
      In h (hourKeysOf hourKey rt)) /\
  NoDup (map HourlyAverage.hourStart
           (averageRTToHourly hourKey localeCompare rt)) /\
  List.length (averageRTToHourly hourKey localeCompare rt) <= List.length rt.
Proof.
  split; [| split].
  - intros h. apply averageRTToHourly_hours_In.
  - apply averageRTToHourly_hours_NoDup.
  - rewrite <- (length_map HourlyAverage.hourStart).
    rewrite <- (length_map (fun p => hourKey (MarketPrice.datetime_beginning_ept p)) rt).
    apply NoDup_incl_length.
    + apply averageRTToHourly_hours_NoDup.
    + intros h Hh. now apply averageRTToHourly_hours_In in Hh.
Qed.

(** X2: the records of [averageRTToHourly] are exactly the hour averages:
    for each hour with samples, the sum of the hour's prices in input order,
    started at 0, divided by their number, with the settlement point of the
    hour's first sample. *)
Theorem X2_averageRTToHourly_records
    (hourKey : string -> string) (localeCompare : string -> string -> Z)
    (rt : list MarketPrice.t) (a : HourlyAverage.t) :
  In a (averageRTToHourly hourKey localeCompare rt) <->
  hourAverage hourKey (HourlyAverage.hourStart a) rt = Some a.
Proof.
  split; intros H.
  - now apply (averageRTToHourly_In hourKey localeCompare).
  - now apply averageRTToHourly_In.
Qed.

(** X3: with a comparator that orders the hour keys of the input, the
    result of [averageRTToHourly] is in ascending order of [hourStart]. *)
Theorem X3_averageRTToHourly_sorted
    (hourKey : string -> string) (localeCompare : string -> string -> Z)
    (rt : list MarketPrice.t) :
  consistentComparatorOn (fun h => In h (hourKeysOf hourKey rt)) localeCompare ->
  StronglySorted (keyOrder HourlyAverage.hourStart localeCompare)
    (averageRTToHourly hourKey localeCompare rt).
Proof.
  intros Hc. unfold averageRTToHourly.
  apply (array_sort_sorted HourlyAverage.hourStart localeCompare _ Hc).
  apply Forall_forall. intros a Ha.
  apply (groupRt_keys_In hourKey localeCompare).
  apply (averages_hours_in_keys hourKey localeCompare). now apply in_map.
Qed.

Lemma X3_averageRTToHourly_sorted_witness :
  consistentComparatorOn
    (fun h => In h (hourKeysOf truncateToHour samples_mixed_shuffled))
    codeCompare /\
  StronglySorted (keyOrder HourlyAverage.hourStart codeCompare)
    (averageRTToHourly truncateToHour codeCompare samples_mixed_shuffled).
Proof.
  split; [apply codeCompare_consistent |].
  exact (X3_averageRTToHourly_sorted truncateToHour codeCompare
           samples_mixed_shuffled (codeCompare_consistent _)).
Defined.

(* ================================================================= *)
(** ** Further properties of the clearing engine *)

Lemma find_hd_filter {A : Type} (p : A -> bool) (l : list A) :
  find p l = hd_error (filter p l).
Proof.
  induction l as [|x l IH]; simpl; auto.
  destruct (p x); auto.
Qed.

(** Last write wins, for any map filled by one [set] per element. *)
Lemma fold_map_set_get {A V : Type} (key : A -> string) (val : A -> V)
    (h : string) (l : list A) (m0 : JS.Map V) :
  JS.map_get h (fold_left (fun m x => JS.map_set (key x) (val x) m) l m0) =
  match find (fun x => String.eqb (key x) h) (rev l) with
  | Some x => Some (val x)
  | None => JS.map_get h m0
  end.
Proof.
  revert m0. induction l as [|x xs IH]; intros m0; simpl; auto.
  rewrite IH, find_app_first.
  destruct (find _ (rev xs)); auto. simpl.
  destruct (String.eqb (key x) h) eqn:E.
  - apply String.eqb_eq in E. subst h. apply map_get_set_same.
  - apply String.eqb_neq in E. now apply map_get_set_other.
Qed.

Lemma find_by_unique_key {A : Type} (key : A -> string) (l : list A) (a : A) :
  NoDup (map key l) -> In a l ->
  find (fun x => String.eqb (key x) (key a)) (rev l) = Some a.
Proof.
  intros Hnd Ha.
  destruct (find _ (rev l)) as [x|] eqn:E.
  - apply find_some in E. destruct E as [Hx Hk].
    apply in_rev in Hx. apply String.eqb_eq in Hk.
    f_equal. now apply (NoDup_map_injective_on key l).
  - apply in_rev in Ha. apply (find_none _ _ E a) in Ha.
    rewrite String.eqb_refl in Ha. discriminate.
Qed.

(** The RT lookup built from the hourly averages gives each hour its own
    average. *)
Lemma rtPriceMap_get
    (hourKey : string -> string) (localeCompare : string -> string -> Z)
    (rt : list MarketPrice.t) (h : string) :
  JS.map_get h (rtPriceMap (averageRTToHourly hourKey localeCompare rt)) =
  option_map HourlyAverage.avgPrice (hourAverage hourKey h rt).
Proof.
  unfold rtPriceMap. rewrite fold_map_set_get. simpl JS.map_get.
  destruct (hourAverage hourKey h rt) as [a|] eqn:E; simpl.
  - pose proof (hourAverage_hourStart _ _ _ _ E) as Hh. subst h.
    rewrite find_by_unique_key; auto.
    + apply averageRTToHourly_hours_NoDup.
    + now apply averageRTToHourly_In.
  - destruct (find _ (rev (averageRTToHourly hourKey localeCompare rt)))
      as [x|] eqn:F; auto.
    apply find_some in F. destruct F as [Hx Hk].
    apply in_rev in Hx. apply String.eqb_eq in Hk.
    apply averageRTToHourly_In in Hx. rewrite Hk in Hx. congruence.
Qed.

Lemma clearHour_hourStart (g : JS.Map (list Bid.t)) (dm rm : JS.Map JS.number)
    (h : string) :
  HourlyClear.hourStart (clearHour g dm rm h) = h.
Proof. reflexivity. Qed.

(** X4: with a comparator that orders the hours of the bids and of the DA
    points, [clearBids] returns its records in ascending order of
    [hourStart]. *)
Theorem X4_clearBids_sorted
    (hourKey : string -> string) (localeCompare : string -> string -> Z)
    (bids : list Bid.t) (da rt : list MarketPrice.t) :
  consistentComparatorOn
    (fun h => In h (map Bid.hourStart bids) \/
              In h (map MarketPrice.datetime_beginning_ept da))
    localeCompare ->
  StronglySorted (keyOrder HourlyClear.hourStart localeCompare)
    (clearBids hourKey localeCompare bids da rt).
Proof.
  intros Hc. unfold clearBids.
  apply (array_sort_sorted HourlyClear.hourStart localeCompare _ Hc).
  apply Forall_forall. intros r Hr.
  apply in_map_iff in Hr. destruct Hr as (h & <- & Hh).
  rewrite clearHour_hourStart. now apply collectHours_In.
Qed.

Lemma X4_clearBids_sorted_witness :
  consistentComparatorOn
    (fun h => In h (map Bid.hourStart mockBids) \/
              In h (map MarketPrice.datetime_beginning_ept mockDAPrices))
    codeCompare /\
  StronglySorted (keyOrder HourlyClear.hourStart codeCompare)
    (clearBids truncateToHour codeCompare mockBids mockDAPrices mockRTPrices).
Proof.
  split; [apply codeCompare_consistent |].
  exact (X4_clearBids_sorted truncateToHour codeCompare mockBids mockDAPrices
           mockRTPrices (codeCompare_consistent _)).
Defined.

(** X5: when the DA list holds several points for one hour, the record of
    that hour carries the price of the last of them in input order; it has
    no DA price exactly when the list holds no point for the hour. *)
Theorem X5_clearBids_last_DA_point_wins
    (hourKey : string -> string) (localeCompare : string -> string -> Z)
    (bids : list Bid.t) (da rt : list MarketPrice.t) (r : HourlyClear.t) :
  In r (clearBids hourKey localeCompare bids da rt) ->
  HourlyClear.daPrice r =
    option_map MarketPrice.settlement_point_price
      (hd_error (rev (daPointsOfHour (HourlyClear.hourStart r) da))) /\
  (HourlyClear.daPrice r = None <->
   ~ In (HourlyClear.hourStart r)
        (map MarketPrice.datetime_beginning_ept da)).
Proof.
  intros Hin. apply (clearBids_record hourKey localeCompare) in Hin.
  destruct Hin as (_ & Hda & _).
  assert (HourlyClear.daPrice r =
    option_map MarketPrice.settlement_point_price
      (hd_error (rev (daPointsOfHour (HourlyClear.hourStart r) da)))) as Hlast.
  { rewrite Hda, daPriceMap_get, find_hd_filter, filter_rev. reflexivity. }
  split; [exact Hlast |].
  rewrite Hlast. unfold daPointsOfHour.
  set (h := HourlyClear.hourStart r).
  set (f := fun p => String.eqb (MarketPrice.datetime_beginning_ept p) h).
  split.
  - intros Hnone Hh. apply in_map_iff in Hh. destruct Hh as (p & Hp & Hpin).
    assert (In p (rev (filter f da))) as Hf.
    { apply in_rev. rewrite rev_involutive. apply filter_In. split; auto.
      unfold f. now apply String.eqb_eq. }
    destruct (rev (filter f da)); [destruct Hf | discriminate].
  - intros Hh. destruct (rev (filter f da)) as [|p ps] eqn:E; auto.
    exfalso. apply Hh.
    assert (In p (filter f da)) as Hp.
    { apply in_rev. rewrite E. now left. }
    apply filter_In in Hp. destruct Hp as [Hp Hk].
    unfold f in Hk. apply String.eqb_eq in Hk. rewrite <- Hk.
    now apply in_map.
Qed.

Lemma X5_clearBids_last_DA_point_wins_witness :
  In clear08
     (clearBids truncateToHour codeCompare mockBids
        (MarketPrice.mk hour08 "2024-01-01T14:00:00.000Z" "HB_HOUSTON" 20%float
           :: mockDAPrices)
        mockRTPrices) /\
  HourlyClear.daPrice clear08 = Some 55%float.
Proof.
  assert (Hin : In clear08
     (clearBids truncateToHour codeCompare mockBids
        (MarketPrice.mk hour08 "2024-01-01T14:00:00.000Z" "HB_HOUSTON" 20%float
           :: mockDAPrices)
        mockRTPrices)) by (vm_compute; left; reflexivity).
  split; [exact Hin |].
  exact (proj1 (X5_clearBids_last_DA_point_wins truncateToHour codeCompare
                  mockBids _ mockRTPrices clear08 Hin)).
Defined.

(** X6: the RT price of a clearing record is the hourly average of the RT
    samples whose clock hour is the record's [hourStart]; it is absent
    exactly when no sample falls in that hour. *)
Theorem X6_clearBids_avgRtPrice
    (hourKey : string -> string) (localeCompare : string -> string -> Z)
    (bids : list Bid.t) (da rt : list MarketPrice.t) (r : HourlyClear.t) :
  In r (clearBids hourKey localeCompare bids da rt) ->
  HourlyClear.avgRtPrice r =
    option_map HourlyAverage.avgPrice
      (hourAverage hourKey (HourlyClear.hourStart r) rt) /\
  (HourlyClear.avgRtPrice r = None <->
   ~ In (HourlyClear.hourStart r) (hourKeysOf hourKey rt)).
Proof.
  intros Hin. apply (clearBids_record hourKey localeCompare) in Hin.
  destruct Hin as (_ & _ & Hrt & _).
  rewrite Hrt, rtPriceMap_get. split; [reflexivity |].
  rewrite <- samplesOfHour_nonempty. unfold hourAverage.
  destruct (samplesOfHour hourKey (HourlyClear.hourStart r) rt); simpl.
  - split; [intros _ H; now apply H | reflexivity].
  - split; [discriminate | intros H; exfalso; apply H; discriminate].
Qed.

Lemma X6_clearBids_avgRtPrice_witness :
  In clear08
     (clearBids truncateToHour codeCompare mockBids mockDAPrices mockRTPrices) /\
  HourlyClear.avgRtPrice clear08 =
    option_map HourlyAverage.avgPrice
      (hourAverage truncateToHour hour08 mockRTPrices).
Proof.
  assert (Hin : In clear08
            (clearBids truncateToHour codeCompare mockBids mockDAPrices
                       mockRTPrices)) by (vm_compute; left; reflexivity).
  split; [exact Hin |].
  exact (proj1 (X6_clearBids_avgRtPrice truncateToHour codeCompare
                  mockBids mockDAPrices mockRTPrices clear08 Hin)).
Defined.

Lemma bidsOfHour_nonempty (h : string) (bids : list Bid.t) :
  bidsOfHour h bids <> [] <-> In h (map Bid.hourStart bids).
Proof.
  unfold bidsOfHour. split.
  - destruct (filter _ bids) as [|b bs] eqn:E; [congruence |]. intros _.
    assert (In b (filter (fun b => String.eqb (Bid.hourStart b) h) bids)) as Hb
      by (rewrite E; now left).
    apply filter_In in Hb. destruct Hb as [Hb Hk].
    apply String.eqb_eq in Hk. subst h. now apply in_map.
  - intros Hin Hnil. apply in_map_iff in Hin. destruct Hin as (b & Hk & Hb).
    assert (In b (filter (fun b => String.eqb (Bid.hourStart b) h) bids)) as Hf.
    { apply filter_In. split; auto. now apply String.eqb_eq. }
    rewrite Hnil in Hf. destruct Hf.
Qed.

Lemma clearHour_same_bids (g g' : JS.Map (list Bid.t))
    (dm rm : JS.Map JS.number) (h : string) :
  get_or_nil h g = get_or_nil h g' ->
  clearHour g dm rm h = clearHour g' dm rm h.
Proof.
  unfold clearHour, get_or_nil. intros ->. reflexivity.
Qed.

Lemma daPriceMap_has (h : string) (da : list MarketPrice.t) :
  In h (map MarketPrice.datetime_beginning_ept da) ->
  JS.map_get h (daPriceMap da) <> None.
Proof.
  intros Hin. rewrite daPriceMap_get.
  destruct (find _ (rev da)) as [p|] eqn:E; [discriminate |].
  apply in_map_iff in Hin. destruct Hin as (p & Hp & Hpin).
  apply in_rev in Hpin. apply (find_none _ _ E) in Hpin.
  rewrite Hp, String.eqb_refl in Hpin. discriminate.
Qed.

(** X7: with no bids at all, [clearBids] returns exactly one record per
    distinct hour of the DA list -- the output hours are the DA hours, no hour
    twice -- each with its DA price present, [clearedQty = 0] and
    [pnl = 0]. *)
Theorem X7_clearBids_without_bids
    (hourKey : string -> string) (localeCompare : string -> string -> Z)
    (da rt : list MarketPrice.t) :
  (forall h,
      In h (map HourlyClear.hourStart (clearBids hourKey localeCompare [] da rt))
      <-> In h (map MarketPrice.datetime_beginning_ept da)) /\
  NoDup (map HourlyClear.hourStart (clearBids hourKey localeCompare [] da rt)) /\
  List.length (clearBids hourKey localeCompare [] da rt) <= List.length da /\
  (forall r,
      In r (clearBids hourKey localeCompare [] da rt) ->
      HourlyClear.daPrice r <> None /\
      HourlyClear.clearedQty r = 0%float /\
      HourlyClear.pnl r = 0%float).
Proof.
  assert (NoDup (map HourlyClear.hourStart
                   (clearBids hourKey localeCompare [] da rt))) as Hnd.
  { eapply Permutation_NoDup.
    - symmetry. apply clearBids_hours.
    - apply collectHours_NoDup. }
  split; [| split; [exact Hnd | split]].
  - intros h. split; intros H.
    + apply (Permutation_in _ (clearBids_hours hourKey localeCompare [] da rt)) in H.
      apply collectHours_In in H. simpl in H. tauto.
    + apply (Permutation_in _
               (Permutation_sym (clearBids_hours hourKey localeCompare [] da rt))).
      apply collectHours_In. now right.
  - rewrite <- (length_map HourlyClear.hourStart).
    rewrite <- (length_map MarketPrice.datetime_beginning_ept da).
    apply NoDup_incl_length; [exact Hnd |].
    intros h Hh.
    apply (Permutation_in _ (clearBids_hours hourKey localeCompare [] da rt)) in Hh.
    apply collectHours_In in Hh. simpl in Hh. tauto.
  - intros r Hin.
    pose proof (clearBids_record hourKey localeCompare _ _ _ _ Hin)
      as (Hh & Hda & _ & Hq & Hpnl).
    simpl in Hh. destruct Hh as [[]|Hh].
    assert (HourlyClear.daPrice r <> None) as Hsome.
    { rewrite Hda. now apply daPriceMap_has. }
    split; [exact Hsome |].
    assert (HourlyClear.clearedQty r = 0%float) as Hzero.
    { rewrite Hq. destruct (HourlyClear.daPrice r); reflexivity. }
    split; [exact Hzero |].
    rewrite Hpnl, Hzero.
    destruct (HourlyClear.daPrice r); auto.
    destruct (HourlyClear.avgRtPrice r); auto.
Qed.

Lemma X7_clearBids_without_bids_witness :
  In (HourlyClear.mk hour08 (Some 55%float) (Some 60%float) 0%float 0%float)
     (clearBids truncateToHour codeCompare [] mockDAPrices mockRTPrices) /\
  HourlyClear.clearedQty
    (HourlyClear.mk hour08 (Some 55%float) (Some 60%float) 0%float 0%float)
  = 0%float.
Proof.
  assert (Hin :
    In (HourlyClear.mk hour08 (Some 55%float) (Some 60%float) 0%float 0%float)
       (clearBids truncateToHour codeCompare [] mockDAPrices mockRTPrices))
    by (vm_compute; left; reflexivity).
  split; [exact Hin |].
  exact (proj1 (proj2 (proj2 (proj2 (proj2
           (X7_clearBids_without_bids truncateToHour codeCompare
              mockDAPrices mockRTPrices))) _ Hin))).
Defined.

(** X8: the record of an hour depends on the bids of that hour only:
    replacing the bid list by one with the same bids, in the same order, on
    that hour leaves the hour's record in the output unchanged, whatever
    happens to the bids of other hours. *)
Theorem X8_clearBids_hours_are_independent
    (hourKey : string -> string) (localeCompare : string -> string -> Z)
    (bids bids' : list Bid.t) (da rt : list MarketPrice.t) (r : HourlyClear.t) :
  In r (clearBids hourKey localeCompare bids da rt) ->
  bidsOfHour (HourlyClear.hourStart r) bids' =
  bidsOfHour (HourlyClear.hourStart r) bids ->
  In r (clearBids hourKey localeCompare bids' da rt).
Proof.
  intros Hin Hsame.
  apply clearBids_In in Hin. destruct Hin as (h & Hh & ->).
  rewrite clearHour_hourStart in Hsame.
  apply clearBids_In. exists h. split.
  - destruct Hh as [Hh|Hh]; [left | now right].
    apply bidsOfHour_nonempty. rewrite Hsame. now apply bidsOfHour_nonempty.
  - apply clearHour_same_bids. now rewrite !groupBids_get.
Qed.

Lemma X8_clearBids_hours_are_independent_witness :
  In clear09
     (clearBids truncateToHour codeCompare mockBids mockDAPrices mockRTPrices) /\
  bidsOfHour hour09 [Bid.mk "3" hour09 BUY 40%float 75%float] =
  bidsOfHour hour09 mockBids /\
  In clear09
     (clearBids truncateToHour codeCompare
        [Bid.mk "3" hour09 BUY 40%float 75%float] mockDAPrices mockRTPrices).
Proof.
  assert (Hin : In clear09
            (clearBids truncateToHour codeCompare mockBids mockDAPrices
                       mockRTPrices)) by (vm_compute; right; left; reflexivity).
  assert (Hsame : bidsOfHour (HourlyClear.hourStart clear09)
                    [Bid.mk "3" hour09 BUY 40%float 75%float] =
                  bidsOfHour (HourlyClear.hourStart clear09) mockBids)
    by reflexivity.
  split; [exact Hin | split; [exact Hsame |]].
  exact (X8_clearBids_hours_are_independent truncateToHour codeCompare
           mockBids _ mockDAPrices mockRTPrices clear09 Hin Hsame).
Defined.

Lemma accumulateCleared_none (hourBids : list Bid.t) (p : JS.number) :
  (forall b, In b hourBids -> shouldBidClear b p = false) ->
  accumulateCleared hourBids p = 0%float.
Proof.
  unfold accumulateCleared. generalize 0%float as acc.
  induction hourBids as [|b bs IH]; intros acc H; simpl; auto.
  rewrite (H b (or_introl eq_refl)). apply IH.
  intros b' Hb'. apply H. now right.
Qed.

(** X9: when none of the bids of an hour clears against the hour's DA
    price (every BUY is priced below it, every SELL above it), the hour's
    record is flat: [clearedQty = 0] and [pnl = 0]. *)
Theorem X9_clearBids_no_bid_clears
    (hourKey : string -> string) (localeCompare : string -> string -> Z)
    (bids : list Bid.t) (da rt : list MarketPrice.t)
    (r : HourlyClear.t) (p : JS.number) :
  In r (clearBids hourKey localeCompare bids da rt) ->
  HourlyClear.daPrice r = Some p ->
  (forall b, In b (bidsOfHour (HourlyClear.hourStart r) bids) ->
             shouldBidClear b p = false) ->
  HourlyClear.clearedQty r = 0%float /\ HourlyClear.pnl r = 0%float.
Proof.
  intros Hin Hda Hnone.
  apply (clearBids_record hourKey localeCompare) in Hin.
  destruct Hin as (_ & _ & _ & Hq & Hpnl).
  assert (HourlyClear.clearedQty r = 0%float) as Hzero.
  { rewrite Hq, Hda. now apply accumulateCleared_none. }
  split; [exact Hzero |].
  rewrite Hpnl, Hda, Hzero. destruct (HourlyClear.avgRtPrice r); reflexivity.
Qed.

Lemma X9_clearBids_no_bid_clears_witness :
  In (HourlyClear.mk hour08 (Some 55%float) (Some 60%float) 0%float 0%float)
     (clearBids truncateToHour codeCompare
        [Bid.mk "1" hour08 BUY 50%float 100%float;
         Bid.mk "2" hour08 SELL 60%float 50%float]
        mockDAPrices mockRTPrices) /\
  HourlyClear.pnl
    (HourlyClear.mk hour08 (Some 55%float) (Some 60%float) 0%float 0%float)
  = 0%float.
Proof.
  assert (Hin :
    In (HourlyClear.mk hour08 (Some 55%float) (Some 60%float) 0%float 0%float)
       (clearBids truncateToHour codeCompare
          [Bid.mk "1" hour08 BUY 50%float 100%float;
           Bid.mk "2" hour08 SELL 60%float 50%float]
          mockDAPrices mockRTPrices))
    by (vm_compute; left; reflexivity).
  split; [exact Hin |].
  refine (proj2 (X9_clearBids_no_bid_clears truncateToHour codeCompare
                   _ mockDAPrices mockRTPrices _ 55%float Hin eq_refl _)).
  intros b [<-|[<-|[]]]; reflexivity.
Defined.

Lemma filter_length_implies {A : Type} (p q : A -> bool) (l : list A) :
  (forall x, In x l -> p x = true -> q x = true) ->
  List.length (filter p l) <= List.length (filter q l).
Proof.
  induction l as [|x l IH]; intros H; simpl; auto.
  assert (List.length (filter p l) <= List.length (filter q l)) as Hl.
  { apply IH. intros y Hy. apply H. now right. }
  destruct (p x) eqn:Ep.
  - rewrite (H x (or_introl eq_refl) Ep). simpl. lia.
  - destruct (q x); simpl; lia.
Qed.

(** X10: in the summary of a clearing run, an hour with nonzero P&L is an
    hour with a position, so [hoursWithPnL <= hoursWithPositions], and
    neither count exceeds the number of records. *)
Theorem X10_summary_counts_of_a_clearing_run
    (hourKey : string -> string) (localeCompare : string -> string -> Z)
    (bids : list Bid.t) (da rt : list MarketPrice.t) :
  let summary :=
    getClearingSummary (clearBids hourKey localeCompare bids da rt) in
  ClearingSummary.hoursWithPnL summary <=
  ClearingSummary.hoursWithPositions summary /\
  ClearingSummary.hoursWithPositions summary <=
  List.length (clearBids hourKey localeCompare bids da rt).
Proof.
  simpl. split.
  - apply filter_length_implies. intros r Hin Hnz.
    apply (clearBids_record hourKey localeCompare) in Hin.
    destruct Hin as (_ & _ & _ & _ & Hpnl).
    rewrite Hpnl in Hnz.
    destruct (HourlyClear.daPrice r); [| discriminate Hnz].
    destruct (HourlyClear.avgRtPrice r); [| discriminate Hnz].
    destruct (JS.strict_ne (HourlyClear.clearedQty r) 0%float);
      [reflexivity | discriminate Hnz].
  - clear. generalize (clearBids hourKey localeCompare bids da rt). intros l.
    induction l as [|x l IH]; simpl; auto.
    destruct (JS.strict_ne _ _); simpl; lia.
Qed.

(* ================================================================= *)
(** ** Further properties of the cutoff and of the hour starts *)

Module TimeFacts.
Import Luxon Cutoff.
Local Open Scope Z_scope.

Lemma day_split (L t : Z) :
  0 <= t < 86400000 ->
  (L * 86400000 + t) / 86400000 = L /\
  (L * 86400000 + t) mod 86400000 = t /\
  (L * 86400000 + t) mod 3600000 = t mod 3600000.
Proof.
  intros Ht. repeat split.
  - rewrite Z.add_comm, Z.div_add by lia. rewrite Z.div_small; lia.
  - rewrite Z.add_comm, Z.mod_add by lia. apply Z.mod_small. lia.
  - replace (L * 86400000) with (L * 24 * 3600000) by ring.
    rewrite Z.add_comm, Z.mod_add by lia. reflexivity.
Qed.

(** The wall-clock reading after [set]: the same local day, the new time
    of day. *)
Lemma localMillis_set_time (h mi s ms : Z) (dt : DateTime) :
  localMillis (set_time h mi s ms dt) =
  localDay dt * 86400000 + (((h * 60 + mi) * 60 + s) * 1000 + ms).
Proof.
  unfold localMillis, set_time, MS_PER_DAY, MS_PER_MINUTE. simpl. ring.
Qed.

Lemma cutoff_reads_eleven (localZone marketZone : Z) (d : CalendarDate) :
  hour (getCutoffTime localZone marketZone d) = 11 /\
  minute (getCutoffTime localZone marketZone d) = 0.
Proof.
  unfold hour, minute, getCutoffTime, CUTOFF_HOUR, CUTOFF_MINUTE.
  rewrite localMillis_set_time.
  unfold MS_PER_DAY, MS_PER_HOUR, MS_PER_MINUTE.
  destruct (day_split (localDay (setZone marketZone (fromISO localZone d)))
              (((11 * 60 + 0) * 60 + 0) * 1000 + 0)) as (_ & Hd & Hh); [lia |].
  rewrite Hd, Hh. split; reflexivity.
Qed.

(** X11: whatever the zones, the date and the clock, the status text is
    "Order entry closed" when the cutoff has passed and "Order entry open
    until 11:00 CT" when it has not. *)
Theorem X11_cutoff_status_text (localZone marketZone now : Z) (d : CalendarDate) :
  timeToString (getCutoffStatus localZone marketZone now d) =
  if isCutoffPassed (getCutoffStatus localZone marketZone now d)
  then "Order entry closed"%string
  else "Order entry open until 11:00 CT"%string.
Proof.
  unfold getCutoffStatus. cbn [timeToString isCutoffPassed].
  destruct (gt _ _); [reflexivity |].
  unfold toFormat_HHmm.
  destruct (cutoff_reads_eleven localZone marketZone d) as [-> ->].
  reflexivity.
Qed.



End TimeFacts.

(* ================================================================= *)
(** ** Hour starts and cutoff over zones with daylight saving *)

Module ZonedFacts.
Import Luxon Zoned.
Local Open Scope Z_scope.

(** When the zone has the offset [off] both at the guessed instant and at
    the instant that reads [localTS] under [off], that instant is the one
    found. *)
Lemma fixOffset_settles (localTS guess off : Z) (tz : Zone) :
  tz (localTS - guess * MS_PER_MINUTE) = off ->
  tz (localTS - off * MS_PER_MINUTE) = off ->
  fixOffset localTS guess tz = (localTS - off * MS_PER_MINUTE, off).
Proof.
  intros Hg Hoff. unfold fixOffset. cbv zeta. rewrite Hg.
  destruct (guess =? off) eqn:E.
  - apply Z.eqb_eq in E. now subst guess.
  - replace (localTS - guess * MS_PER_MINUTE - (off - guess) * MS_PER_MINUTE)
      with (localTS - off * MS_PER_MINUTE) by ring.
    rewrite Hoff, Z.eqb_refl. reflexivity.
Qed.

(** The local day [L] of an instant read with offset [off]. *)
Lemma localDay_bounds (t off : Z) :
  (t + off * 60000) / 86400000 * 86400000 <= t + off * 60000
  < (t + off * 60000) / 86400000 * 86400000 + 86400000.
Proof.
  pose proof (Z.div_mod (t + off * 60000) 86400000) as Hd.
  pose proof (Z.mod_pos_bound (t + off * 60000) 86400000) as Hm.
  lia.
Qed.

Section MarketDay.
Variables localZone marketZone : Zone.
Variable clock : Z.
Variable d : CalendarDate.
Variable mo : Z.

Let parsed := fromISO localZone clock d.
Let atMarket := setZone marketZone parsed.
Let L := localDay atMarket.

Hypothesis steady : steadyAround marketZone mo (zts parsed).

Lemma atMarket_offset : o atMarket = mo.
Proof.
  unfold atMarket, setZone. cbn [o zts]. apply steady.
  unfold MS_PER_DAY. lia.
Qed.

Lemma market_day_bounds :
  L * 86400000 <= zts parsed + mo * 60000 < L * 86400000 + 86400000.
Proof.
  unfold L, localDay, localMillis. rewrite atMarket_offset.
  unfold atMarket, setZone, MS_PER_DAY, MS_PER_MINUTE. cbn [zts].
  apply localDay_bounds.
Qed.

(** Setting a time of day on the market-local day of the parsed date. *)
Lemma set_time_on_market_day (t : Z) :
  0 <= t < 86400000 ->
  fixOffset (L * MS_PER_DAY + t) mo marketZone =
  (L * MS_PER_DAY + t - mo * MS_PER_MINUTE, mo).
Proof.
  intros Ht. pose proof market_day_bounds as Hb.
  assert (marketZone (L * MS_PER_DAY + t - mo * MS_PER_MINUTE) = mo) as Hz.
  { apply steady. unfold MS_PER_DAY, MS_PER_MINUTE. lia. }
  now apply fixOffset_settles.
Qed.

Lemma startOf_day_at_market :
  startOf_day atMarket = mkZoned (L * MS_PER_DAY - mo * MS_PER_MINUTE) marketZone mo.
Proof.
  unfold startOf_day, set_time. fold L. rewrite atMarket_offset.
  change (zone atMarket) with marketZone.
  change ((((0 * 60 + 0) * 60 + 0) * 1000 + 0)) with 0.
  rewrite set_time_on_market_day by lia.
  unfold resolved. cbn [fst snd]. f_equal. ring.
Qed.

Lemma getCutoffTime_at_market :
  getCutoffTime localZone marketZone clock d =
  mkZoned (L * MS_PER_DAY + 11 * MS_PER_HOUR - mo * MS_PER_MINUTE) marketZone mo.
Proof.
  unfold getCutoffTime, set_time. fold parsed. fold atMarket. fold L.
  rewrite atMarket_offset.
  change (zone atMarket) with marketZone.
  change ((((Cutoff.CUTOFF_HOUR * 60 + Cutoff.CUTOFF_MINUTE) * 60 + 0) * 1000 + 0))
    with 39600000.
  rewrite set_time_on_market_day by lia.
  unfold resolved, MS_PER_HOUR. cbn [fst snd]. f_equal.
Qed.

Lemma hour_start_at_market (i : nat) :
  (i < 24)%nat ->
  plus_hours (Z.of_nat i) (startOf_day atMarket) =
  mkZoned (L * MS_PER_DAY - mo * MS_PER_MINUTE + Z.of_nat i * MS_PER_HOUR)
          marketZone mo.
Proof.
  intros Hi. rewrite startOf_day_at_market.
  unfold plus_hours, localMillis. cbn [zts o zone].
  replace (L * MS_PER_DAY - mo * MS_PER_MINUTE + mo * MS_PER_MINUTE)
    with (L * MS_PER_DAY + 0) by ring.
  rewrite set_time_on_market_day by lia. cbn [fst snd].
  replace (L * MS_PER_DAY + 0 - mo * MS_PER_MINUTE)
    with (L * MS_PER_DAY - mo * MS_PER_MINUTE) by ring.
  destruct (Z.of_nat i * MS_PER_HOUR =? 0) eqn:E.
  - apply Z.eqb_eq in E. unfold resolved. cbn [fst snd]. rewrite E.
    f_equal. ring.
  - f_equal. apply steady. pose proof market_day_bounds as Hb.
    unfold MS_PER_DAY, MS_PER_HOUR, MS_PER_MINUTE. lia.
Qed.
End MarketDay.

(** The wall-clock reading of a [DateTime] known by its local day and time
    of day. *)
Lemma zoned_reading (dt : ZonedDateTime) (L t : Z) :
  localMillis dt = L * 86400000 + t -> 0 <= t < 86400000 ->
  localDay dt = L /\
  hour dt = t / 3600000 /\
  minute dt = (t mod 3600000) / 60000.
Proof.
  intros Hl Ht. unfold localDay, hour, minute. rewrite Hl.
  unfold MS_PER_DAY, MS_PER_HOUR, MS_PER_MINUTE.
  destruct (TimeFacts.day_split L t Ht) as (Hq & Hd & Hh).
  now rewrite Hq, Hd, Hh.
Qed.

(** X14: when the market zone keeps one offset from a day before to a day
    after the instant the trading date parses to (no daylight-saving switch
    in between), [getHourStartsForDate] returns 24 instants of which the one
    at index [i] reads [i]:00 in market time, on the same market-local day
    as the others and [i] hours after the first, and the one at index 11 is
    the instant of [getCutoffTime]. *)
Theorem X14_hour_starts_of_a_date
    (localZone marketZone : Zone) (clock : Z) (d : CalendarDate)
    (mo : Z) (i : nat) :
  steadyAround marketZone mo (zts (fromISO localZone clock d)) ->
  (i < 24)%nat ->
  List.length (getHourStartsForDate localZone marketZone clock d) = 24%nat /\
  nth_error (getHourStartsForDate localZone marketZone clock d) 11 =
    Some (getCutoffTime localZone marketZone clock d) /\
  exists dt,
    nth_error (getHourStartsForDate localZone marketZone clock d) i = Some dt /\
    hour dt = Z.of_nat i /\ minute dt = 0 /\ o dt = mo /\
    localDay dt = localDay (setZone marketZone (fromISO localZone clock d)) /\
    zts dt =
      zts (startOf_day (setZone marketZone (fromISO localZone clock d)))
      + Z.of_nat i * MS_PER_HOUR.
Proof.
  intros Hsteady Hi. unfold getHourStartsForDate. split; [| split].
  - now rewrite length_map, length_seq.
  - rewrite nth_error_map, nth_error_seq. cbn [Nat.ltb Nat.leb option_map Nat.add].
    rewrite (hour_start_at_market _ _ _ _ _ Hsteady 11) by lia.
    rewrite (getCutoffTime_at_market _ _ _ _ _ Hsteady).
    f_equal. f_equal. change (Z.of_nat 11) with 11. ring.
  - exists (plus_hours (Z.of_nat i)
              (startOf_day (setZone marketZone (fromISO localZone clock d)))).
    split.
    { rewrite nth_error_map, nth_error_seq.
      apply Nat.ltb_lt in Hi. rewrite Hi. reflexivity. }
    rewrite (hour_start_at_market _ _ _ _ _ Hsteady i Hi).
    rewrite (startOf_day_at_market _ _ _ _ _ Hsteady). cbn [zts o].
    destruct (zoned_reading
                (mkZoned
                   (localDay (setZone marketZone (fromISO localZone clock d))
                    * MS_PER_DAY - mo * MS_PER_MINUTE
                    + Z.of_nat i * MS_PER_HOUR) marketZone mo)
                (localDay (setZone marketZone (fromISO localZone clock d)))
                (Z.of_nat i * 3600000)) as (Hd & Hh & Hm).
    { unfold localMillis, MS_PER_DAY, MS_PER_HOUR, MS_PER_MINUTE.
      cbn [zts o]. ring. }
    { lia. }
    rewrite Hd, Hh, Hm. repeat split.
    + apply Z.div_mul. lia.
    + rewrite Z.mod_mul by lia. reflexivity.
Qed.

Lemma chicago2024_steady_in_winter (t : Z) :
  t + MS_PER_DAY < 1710057600000 -> steadyAround chicago2024 (-360) t.
Proof.
  intros Ht u Hu. unfold chicago2024.
  destruct (Z.leb_spec 1710057600000 u); [lia | reflexivity].
Qed.

Lemma X14_hour_starts_of_a_date_witness :
  steadyAround chicago2024 (-360)
    (zts (fromISO chicago2024 1704110400000 Cutoff.newYear2024)) /\
  (8 < 24)%nat /\
  exists dt,
    nth_error (getHourStartsForDate chicago2024 chicago2024 1704110400000
                 Cutoff.newYear2024) 8 = Some dt /\
    hour dt = 8.
Proof.
  assert (Hs : steadyAround chicago2024 (-360)
                 (zts (fromISO chicago2024 1704110400000 Cutoff.newYear2024)))
    by (apply chicago2024_steady_in_winter; reflexivity).
  assert (Hi : (8 < 24)%nat) by lia.
  split; [exact Hs | split; [exact Hi |]].
  destruct (proj2 (proj2 (X14_hour_starts_of_a_date chicago2024 chicago2024
                            1704110400000 Cutoff.newYear2024 (-360) 8 Hs Hi)))
    as (dt & Hn & Hh & _).
  exists dt. split; [exact Hn | exact Hh].
Defined.

(** X13: when the runtime's zone and the market zone each keep one offset
    from a day before to a day after the local midnight of the trading date
    (no daylight-saving switch in between), and the two offsets are less
    than a day apart, [getCutoffTime] yields 11:00 market time on the
    trading date if the runtime's zone is the market zone or west of it, and
    exactly 24 hours earlier if it is east of it. *)
Theorem X13_cutoff_day_depends_on_runtime_zone
    (localZone marketZone : Zone) (clock : Z) (d : CalendarDate) (lo mo : Z) :
  steadyAround localZone lo (days_from_civil d * MS_PER_DAY - lo * MS_PER_MINUTE) ->
  steadyAround marketZone mo (days_from_civil d * MS_PER_DAY - lo * MS_PER_MINUTE) ->
  lo - 1440 <= localZone clock <= lo + 1440 ->
  mo - 1440 < lo <= mo + 1440 ->
  zts (getCutoffTime localZone marketZone clock d) =
    Cutoff.spec_cutoffInstant mo d
    - (if mo <? lo then MS_PER_DAY else 0) /\
  o (getCutoffTime localZone marketZone clock d) = mo.
Proof.
  intros Hl Hm Hg Hz.
  assert (fromISO localZone clock d =
          mkZoned (days_from_civil d * MS_PER_DAY - lo * MS_PER_MINUTE)
                  localZone lo) as Hparsed.
  { unfold fromISO. rewrite (fixOffset_settles _ _ lo); [reflexivity | |].
    - apply Hl. unfold MS_PER_DAY, MS_PER_MINUTE. lia.
    - apply Hl. unfold MS_PER_DAY, MS_PER_MINUTE. lia. }
  assert (steadyAround marketZone mo (zts (fromISO localZone clock d))) as Hs
    by (rewrite Hparsed; exact Hm).
  rewrite (getCutoffTime_at_market _ _ _ _ _ Hs). cbn [zts o].
  split; [| reflexivity].
  pose proof (market_day_bounds _ _ _ _ _ Hs) as Hb.
  rewrite Hparsed in Hb. cbn [zts] in Hb. rewrite Hparsed.
  unfold Cutoff.spec_cutoffInstant, MS_PER_DAY, MS_PER_HOUR, MS_PER_MINUTE in *.
  destruct (mo <? lo) eqn:E.
  - apply Z.ltb_lt in E. lia.
  - apply Z.ltb_ge in E. lia.
Qed.

Lemma X13_cutoff_day_depends_on_runtime_zone_witness :
  steadyAround utc 0
    (days_from_civil Cutoff.newYear2024 * MS_PER_DAY - 0 * MS_PER_MINUTE) /\
  steadyAround chicago2024 (-360)
    (days_from_civil Cutoff.newYear2024 * MS_PER_DAY - 0 * MS_PER_MINUTE) /\
  zts (getCutoffTime utc chicago2024 1704110400000 Cutoff.newYear2024) =
  Cutoff.spec_cutoffInstant (-360) Cutoff.newYear2024 - MS_PER_DAY.
Proof.
  assert (Hl : steadyAround utc 0
            (days_from_civil Cutoff.newYear2024 * MS_PER_DAY - 0 * MS_PER_MINUTE))
    by (intros u _; reflexivity).
  assert (Hm : steadyAround chicago2024 (-360)
            (days_from_civil Cutoff.newYear2024 * MS_PER_DAY - 0 * MS_PER_MINUTE))
    by (apply chicago2024_steady_in_winter; reflexivity).
  assert (Hg : 0 - 1440 <= utc 1704110400000 <= 0 + 1440) by (unfold utc; lia).
  assert (Hz : -360 - 1440 < 0 <= -360 + 1440) by lia.
  split; [exact Hl | split; [exact Hm |]].
  exact (proj1 (X13_cutoff_day_depends_on_runtime_zone utc chicago2024
                  1704110400000 Cutoff.newYear2024 0 (-360) Hl Hm Hg Hz)).
Defined.

(** For zones that never change their offset, the instant computed here is
    the one of the fixed-offset reading of [getCutoffTime] above. *)
Lemma getCutoffTime_fixed_offsets (lo mo clock : Z) (d : CalendarDate) :
  zts (getCutoffTime (fun _ => lo) (fun _ => mo) clock d) =
  ts (Cutoff.getCutoffTime lo mo d).
Proof.
  assert (steadyAround (fun _ : Z => mo) mo
            (zts (fromISO (fun _ => lo) clock d))) as Hs
    by (intros u _; reflexivity).
  rewrite (getCutoffTime_at_market _ _ _ _ _ Hs). cbn [zts].
  unfold fromISO. rewrite (fixOffset_settles _ _ lo) by reflexivity.
  unfold Cutoff.getCutoffTime, Luxon.set_time, Luxon.setZone, Luxon.fromISO,
    Luxon.localDay, Luxon.localMillis, localDay, localMillis, setZone, resolved,
    Cutoff.CUTOFF_HOUR, Cutoff.CUTOFF_MINUTE, MS_PER_HOUR.
  cbn [zts o fst snd Luxon.ts Luxon.offset]. ring.
Qed.

(** On 10 March 2024, when Chicago skips 02:00, the hour starts computed on
    a Chicago runtime read 00, 01, 03, ..., 23 and 00 of the next day, the
    entry at index 11 reads 12:00, and the cutoff is 11:00 daylight time
    (16:00 UTC). *)
Lemma hour_starts_on_spring_forward :
  List.map hour
    (getHourStartsForDate chicago2024 chicago2024 1704110400000
       springForward2024) =
  [0; 1; 3; 4; 5; 6; 7; 8; 9; 10; 11; 12; 13; 14; 15; 16; 17; 18; 19; 20;
   21; 22; 23; 0] /\
  zts (getCutoffTime chicago2024 chicago2024 1704110400000 springForward2024)
  = 1710086400000 /\
  zts (getCutoffTime utc chicago2024 1704110400000 springForward2024)
  = 1710086400000 - 23 * MS_PER_HOUR.
Proof.
  repeat split; vm_compute; reflexivity.
Qed.

End ZonedFacts.

(* ================================================================= *)
(** ** Further properties of the bid store *)

Module StoreMore.
Import Store.


Lemma addBid_accepts (uuid : string) (bidData : BidData) (state : AppState) :
  bidsInHour (hourStart bidData) state < 10 ->
  addBid uuid bidData state =
  mkState (marketSelection state)
          (bids state ++
             [Bid.mk uuid (hourStart bidData) (side bidData)
                     (price bidData) (qtyMWh bidData)])
          (marketData state) (hourlyClears state) (isLoading state) None.
Proof.
  unfold bidsInHour, getBidsForHour, addBid. cbn [Bid.hourStart]. intros H.
  apply Nat.leb_gt in H. now rewrite H.
Qed.

(** X15: [addBid] on an hour that holds fewer than 10 bids appends the new
    bid, with the given identifier, at the end of the list and clears the
    error; the hour then holds one bid more, every other hour as many as
    before, and market data and clearing results are untouched. *)
Theorem X15_addBid_below_the_cap
    (uuid : string) (bidData : BidData) (state : AppState) :
  bidsInHour (hourStart bidData) state < 10 ->
  bids (addBid uuid bidData state) =
    bids state ++
      [Bid.mk uuid (hourStart bidData) (side bidData)
              (price bidData) (qtyMWh bidData)] /\
  error (addBid uuid bidData state) = None /\
  bidsInHour (hourStart bidData) (addBid uuid bidData state) =
    S (bidsInHour (hourStart bidData) state) /\
  (forall hour, hour <> hourStart bidData ->
     bidsInHour hour (addBid uuid bidData state) = bidsInHour hour state) /\
  marketData (addBid uuid bidData state) = marketData state /\
  hourlyClears (addBid uuid bidData state) = hourlyClears state.
Proof.
  intros H. rewrite (addBid_accepts _ _ _ H). cbn [bids error marketData hourlyClears].
  repeat split.
  - unfold bidsInHour, getBidsForHour. cbn [bids].
    rewrite filter_app, length_app. cbn [filter Bid.hourStart].
    rewrite String.eqb_refl. simpl. lia.
  - intros hour Hne. unfold bidsInHour, getBidsForHour. cbn [bids].
    rewrite filter_app, length_app. cbn [filter Bid.hourStart].
    apply not_eq_sym in Hne. apply String.eqb_neq in Hne. rewrite Hne.
    simpl. lia.
Qed.

Lemma X15_addBid_below_the_cap_witness :
  bidsInHour (hourStart sampleBid) initialState < 10 /\
  bids (addBid "u0" sampleBid initialState) =
    bids initialState ++
      [Bid.mk "u0" (hourStart sampleBid) (side sampleBid)
              (price sampleBid) (qtyMWh sampleBid)].
Proof.
  assert (H : bidsInHour (hourStart sampleBid) initialState < 10)
    by (vm_compute; lia).
  split; [exact H |].
  exact (proj1 (X15_addBid_below_the_cap "u0" sampleBid initialState H)).
Defined.



(** Dropping bids cannot make two of the remaining ones share an id. *)
Lemma kept_ids_distinct (keep : Bid.t -> bool) (held : list Bid.t) :
  NoDup (map Bid.id held) -> NoDup (map Bid.id (filter keep held)).
Proof.
  intros Hnd. induction held as [|b rest IH]; simpl; [constructor |].
  simpl in Hnd. apply NoDup_cons_iff in Hnd. destruct Hnd as [Hb Hrest].
  destruct (keep b); simpl; [| now apply IH].
  apply NoDup_cons; [| now apply IH].
  intros Hin. apply Hb. apply in_map_iff in Hin.
  destruct Hin as (b' & Hid & Hkept). apply filter_In in Hkept.
  rewrite <- Hid. apply in_map. tauto.
Qed.

Lemma dispatch_ids_unique (a : Action) (state : AppState) :
  NoDup (bidIds state) ->
  match a with
  | AddBid uuid _ => ~ In uuid (bidIds state)
  | _ => True
  end ->
  NoDup (bidIds (dispatch a state)).
Proof.
  intros Hnd Hfresh. destruct a; simpl; try exact Hnd.
  - unfold addBid. destruct (Nat.leb 10 _); [exact Hnd |].
    unfold bidIds in *. cbn [bids]. rewrite map_app. simpl.
    apply Permutation_NoDup with (l := uuid :: map Bid.id (bids state)).
    + apply Permutation_cons_append.
    + now constructor.
  - unfold bidIds, removeBid. cbn [bids]. now apply kept_ids_distinct.
  - constructor.
  - constructor.
Qed.

(** X17: as long as every [addBid] receives an identifier that no bid in
    the store carries, the bids of the store keep pairwise distinct
    identifiers through any sequence of actions. *)
Theorem X17_bid_ids_stay_unique (actions : list Action) (state : AppState) :
  NoDup (bidIds state) ->
  freshRun actions state ->
  NoDup (bidIds (run actions state)).
Proof.
  revert state. induction actions as [|a rest IH]; intros state Hnd Hf.
  - exact Hnd.
  - destruct Hf as [Ha Hrest]. simpl. apply IH; auto.
    now apply dispatch_ids_unique.
Qed.

Lemma X17_bid_ids_stay_unique_witness :
  NoDup (bidIds initialState) /\
  freshRun [AddBid "u0" sampleBid; AddBid "u1" sampleBid; RemoveBid "u0"]
           initialState /\
  NoDup (bidIds (run [AddBid "u0" sampleBid; AddBid "u1" sampleBid;
                      RemoveBid "u0"] initialState)).
Proof.
  assert (Hnd : NoDup (bidIds initialState)) by constructor.
  assert (Hf : freshRun [AddBid "u0" sampleBid; AddBid "u1" sampleBid;
                         RemoveBid "u0"] initialState).
  { simpl. repeat split; try tauto. intros [H|[]]. discriminate H. }
  split; [exact Hnd | split; [exact Hf |]].
  exact (X17_bid_ids_stay_unique _ initialState Hnd Hf).
Defined.

(** X18: no action but [addBid] ever puts a bid into the store: a bid
    found after an action was there before, or the action is the [addBid]
    that built it from its arguments; in particular changing the market
    selection or the market data keeps the bids as they are. *)
Theorem X18_only_addBid_adds_bids
    (a : Action) (state : AppState) (b : Bid.t) :
  In b (bids (dispatch a state)) ->
  (In b (bids state) \/
   exists uuid bidData,
     a = AddBid uuid bidData /\
     b = Bid.mk uuid (hourStart bidData) (side bidData)
                (price bidData) (qtyMWh bidData)) /\
  (forall i s d, bids (setMarketSelection i s d state) = bids state) /\
  (forall da rt, bids (setMarketData da rt state) = bids state).
Proof.
  intros Hin. split; [| split; reflexivity].
  destruct a; simpl in Hin; auto.
  - unfold addBid in Hin. destruct (Nat.leb 10 _); cbn [bids] in Hin; auto.
    apply in_app_or in Hin. destruct Hin as [Hin|[<-|[]]]; auto.
    right. exists uuid, bidData. auto.
  - unfold removeBid in Hin. cbn [bids] in Hin. apply filter_In in Hin. tauto.
  - destruct Hin.
  - destruct Hin.
Qed.

Lemma X18_only_addBid_adds_bids_witness :
  In (Bid.mk "u0" (hourStart sampleBid) (side sampleBid)
             (price sampleBid) (qtyMWh sampleBid))
     (bids (dispatch (AddBid "u0" sampleBid) initialState)) /\
  (In (Bid.mk "u0" (hourStart sampleBid) (side sampleBid)
              (price sampleBid) (qtyMWh sampleBid))
      (bids initialState) \/
   exists uuid bidData,
     AddBid "u0" sampleBid = AddBid uuid bidData /\
     Bid.mk "u0" (hourStart sampleBid) (side sampleBid)
            (price sampleBid) (qtyMWh sampleBid) =
     Bid.mk uuid (hourStart bidData) (side bidData)
            (price bidData) (qtyMWh bidData)).
Proof.
  assert (Hin : In (Bid.mk "u0" (hourStart sampleBid) (side sampleBid)
                           (price sampleBid) (qtyMWh sampleBid))
                   (bids (dispatch (AddBid "u0" sampleBid) initialState)))
    by (vm_compute; left; reflexivity).
  split; [exact Hin |].
  exact (proj1 (X18_only_addBid_adds_bids _ initialState _ Hin)).
Defined.

End StoreMore.

(* ================================================================= *)
(** ** The market-data proxy *)

Module RouteFacts.
Import Route.

Lemma truthy_stringOf (s : option string) :
  truthy s = true -> stringOf s <> ""%string /\ s = Some (stringOf s).
Proof.
  destruct s as [x|]; simpl; [| discriminate].
  rewrite negb_true_iff, String.eqb_neq. auto.
Qed.

Lemma toMarketPrice_rawOf (p : MarketPrice.t) : toMarketPrice (rawOf p) = p.
Proof. destruct p. reflexivity. Qed.

Lemma isComplete_rawOf (p : MarketPrice.t) :
  wellFormed p -> isComplete (rawOf p) = true.
Proof.
  intros (H1 & H2 & H3). unfold isComplete, rawOf, truthy. simpl.
  apply String.eqb_neq in H1, H2, H3. now rewrite H1, H2, H3.
Qed.

Lemma transform_wellFormed (data : list RawApiDataItem) (p : MarketPrice.t) :
  In p (transformGridStatusData data) -> wellFormed p.
Proof.
  unfold transformGridStatusData. intros Hin.
  apply in_map_iff in Hin. destruct Hin as (item & <- & Hitem).
  apply filter_In in Hitem. destruct Hitem as [_ Hc].
  unfold isComplete in Hc. rewrite !andb_true_iff in Hc.
  destruct Hc as [[[H1 H2] H3] _].
  unfold wellFormed, toMarketPrice. simpl.
  repeat split; now apply truthy_stringOf.
Qed.


Lemma transform_rawOf (l : list MarketPrice.t) :
  Forall wellFormed l -> transformGridStatusData (List.map rawOf l) = l.
Proof.
  unfold transformGridStatusData.
  induction 1 as [|p l Hp Hl IH]; simpl; auto.
  rewrite (isComplete_rawOf p Hp). simpl.
  now rewrite toMarketPrice_rawOf, IH.
Qed.

(** X20: price records with non-empty strings survive the transformation
    unchanged: sending them through it as raw items gives them back, and so
    a result of the transformation is a fixed point of it. *)
Theorem X20_transform_round_trip
    (l : list MarketPrice.t) (data : list RawApiDataItem) :
  Forall wellFormed l ->
  transformGridStatusData (List.map rawOf l) = l /\
  transformGridStatusData (List.map rawOf (transformGridStatusData data)) =
  transformGridStatusData data.
Proof.
  intros Hwf. split.
  - now apply transform_rawOf.
  - apply transform_rawOf. apply Forall_forall. apply transform_wellFormed.
Qed.

Lemma X20_transform_round_trip_witness :
  Forall wellFormed mockDAPrices /\
  transformGridStatusData (List.map rawOf mockDAPrices) = mockDAPrices.
Proof.
  assert (Hwf : Forall wellFormed mockDAPrices).
  { repeat constructor; simpl; discriminate. }
  split; [exact Hwf |].
  exact (proj1 (X20_transform_round_trip mockDAPrices [] Hwf)).
Defined.

Section RetryFacts.
Variable fetch : nat -> Outcome.
Variable getBackoffMs : Response -> nat -> Z.

Lemma describesCalls_finish (attempt : nat) (r : FetchResult) :
  fetch attempt = outcomeOf r ->
  describesCalls fetch getBackoffMs 0 attempt (finish r).
Proof.
  intros Hf. unfold describesCalls, finish. cbn [attemptsUsed sleeps result].
  replace (attempt + 1 - 1) with attempt by lia.
  split; [lia | split; [reflexivity | split; [exact Hf | split]]].
  - intros k Hk. lia.
  - reflexivity.
Qed.

Lemma describesCalls_stop (remaining attempt : nat) (res : Response) :
  fetch attempt = Responded res -> Route.status res <> 429%Z ->
  describesCalls fetch getBackoffMs remaining attempt (finish (Returned res)).
Proof.
  intros Hf Hs. unfold describesCalls, finish. cbn [attemptsUsed sleeps result].
  replace (attempt + 1 - 1) with attempt by lia.
  split; [lia | split; [reflexivity | split; [exact Hf | split]]].
  - intros k Hk. lia.
  - rewrite Hf. simpl. intros H429. contradiction.
Qed.

Lemma describesCalls_retry (remaining attempt : nat) (t : RetryTrace) :
  retryable (fetch attempt) ->
  describesCalls fetch getBackoffMs remaining (S attempt) t ->
  describesCalls fetch getBackoffMs (S remaining) attempt
    (sleepThen (delayAfter fetch getBackoffMs attempt) t).
Proof.
  intros Hret (Hb & Hl & Hf & Hk & Hr).
  unfold describesCalls, sleepThen. cbn [attemptsUsed sleeps result].
  replace (attempt + S (attemptsUsed t) - 1)
    with (S attempt + attemptsUsed t - 1) by lia.
  split; [lia | split; [simpl; lia | split; [exact Hf | split]]].
  - intros k Hlt. destruct k as [|k].
    + rewrite Nat.add_0_r. split; [exact Hret | reflexivity].
    + replace (attempt + S k) with (S attempt + k) by lia.
      cbn [nth_error]. apply Hk. lia.
  - intros H. f_equal. now apply Hr.
Qed.

Lemma attemptFrom_describesCalls (remaining attempt : nat) :
  describesCalls fetch getBackoffMs remaining attempt
    (attemptFrom fetch getBackoffMs remaining attempt).
Proof.
  revert attempt.
  induction remaining as [|rem IH]; intros attempt; cbn [attemptFrom].
  - destruct (fetch attempt) as [res|msg] eqn:E;
      apply describesCalls_finish; auto.
  - destruct (fetch attempt) as [res|msg] eqn:E.
    + destruct (Route.status res =? 429)%Z eqn:Es.
      * apply Z.eqb_eq in Es.
        replace (getBackoffMs res attempt)
          with (delayAfter fetch getBackoffMs attempt)
          by (unfold delayAfter; now rewrite E).
        apply describesCalls_retry; [| apply IH]. now rewrite E.
      * apply Z.eqb_neq in Es. now apply describesCalls_stop.
    + replace (1200 * (Z.of_nat attempt + 1))%Z
        with (delayAfter fetch getBackoffMs attempt)
        by (unfold delayAfter; now rewrite E).
      apply describesCalls_retry; [| apply IH]. now rewrite E.
Qed.

(** X21: [fetchWithRetry(maxRetries)] calls the upstream at least once and
    at most [maxRetries + 1] times, and sleeps exactly once between two
    consecutive calls; after a failed call the delay is 1200 ms times the
    number of calls made so far, after a 429 it is what [getBackoffMs]
    says. *)
Theorem X21_fetchWithRetry_attempts_and_delays (maxRetries : nat) :
  1 <= attemptsUsed (fetchWithRetry fetch getBackoffMs maxRetries)
    <= maxRetries + 1 /\
  S (List.length (sleeps (fetchWithRetry fetch getBackoffMs maxRetries))) =
    attemptsUsed (fetchWithRetry fetch getBackoffMs maxRetries) /\
  (forall k delay,
      nth_error (sleeps (fetchWithRetry fetch getBackoffMs maxRetries)) k
        = Some delay ->
      delay = match fetch k with
              | Responded res => getBackoffMs res k
              | Failed _ => (1200 * (Z.of_nat k + 1))%Z
              end).
Proof.
  destruct (attemptFrom_describesCalls maxRetries 0) as (Hb & Hl & _ & Hk & _).
  fold (fetchWithRetry fetch getBackoffMs maxRetries) in *.
  split; [lia | split; [exact Hl |]].
  intros k delay Hn.
  assert (k < attemptsUsed (fetchWithRetry fetch getBackoffMs maxRetries) - 1)
    as Hlt.
  { assert (k < List.length
                  (sleeps (fetchWithRetry fetch getBackoffMs maxRetries)))
      by (apply nth_error_Some; congruence). lia. }
  destruct (Hk k Hlt) as [_ Hd]. simpl in Hd. rewrite Hd in Hn.
  injection Hn as <-. reflexivity.
Qed.

(** X22: what [fetchWithRetry] returns or throws is the outcome of its last
    call; every earlier call ended in a 429 or a failure; and the last call
    is itself a 429 or a failure only when all [maxRetries + 1] calls were
    used.  So the first response other than 429 within the allowed calls is
    the one returned. *)
Theorem X22_fetchWithRetry_result (maxRetries : nat) :
  let t := fetchWithRetry fetch getBackoffMs maxRetries in
  fetch (attemptsUsed t - 1) = outcomeOf (result t) /\
  (forall k, k < attemptsUsed t - 1 -> retryable (fetch k)) /\
  (retryable (fetch (attemptsUsed t - 1)) ->
   attemptsUsed t = maxRetries + 1).
Proof.
  destruct (attemptFrom_describesCalls maxRetries 0) as (_ & _ & Hf & Hk & Hr).
  fold (fetchWithRetry fetch getBackoffMs maxRetries) in *.
  simpl in *. split; [exact Hf | split].
  - intros k Hlt. now apply Hk.
  - intros H. rewrite Hr by exact H. lia.
Qed.
End RetryFacts.

End RouteFacts.

(* ================================================================= *)
(** ** The price chart's data *)

Lemma chartHours_In (da : list MarketPrice.t) (avgs : list HourlyAverage.t)
    (h : string) :
  In h (chartHours da avgs) <->
  In h (map MarketPrice.datetime_beginning_ept da) \/
  In h (map HourlyAverage.hourStart avgs).
Proof.
  unfold chartHours. rewrite !add_all_In. simpl. tauto.
Qed.

Lemma chartHours_NoDup (da : list MarketPrice.t) (avgs : list HourlyAverage.t) :
  NoDup (chartHours da avgs).
Proof.
  unfold chartHours. apply add_all_NoDup, add_all_NoDup. constructor.
Qed.

Section ChartFacts.
Variable hourKey : string -> string.
Variable localeCompare : string -> string -> Z.
Variable formatHourForDisplay : string -> string.

Lemma chartData_hours (da rt : list MarketPrice.t) :
  map ChartDataPoint.hour
      (chartData hourKey localeCompare formatHourForDisplay da rt) =
  JS.array_sort defaultCompare
    (chartHours da (averageRTToHourly hourKey localeCompare rt)).
Proof.
  unfold chartData. rewrite map_map. simpl. apply map_id.
Qed.

Lemma chartData_In (da rt : list MarketPrice.t) (c : ChartDataPoint.t) :
  In c (chartData hourKey localeCompare formatHourForDisplay da rt) ->
  c = chartPoint formatHourForDisplay (daPriceMap da)
        (rtPriceMap (averageRTToHourly hourKey localeCompare rt))
        (ChartDataPoint.hour c).
Proof.
  unfold chartData. intros Hin. apply in_map_iff in Hin.
  destruct Hin as (h & <- & _). reflexivity.
Qed.
End ChartFacts.

(** X23: the chart has one point per hour that has a DA point or an RT
    sample -- hours known only from RT data included, unlike the clearing
    output -- without repetition and in ascending order of the hour
    strings. *)
Theorem X23_chart_hours
    (hourKey : string -> string) (localeCompare : string -> string -> Z)
    (formatHourForDisplay : string -> string)
    (da rt : list MarketPrice.t) :
  (forall h,
      In h (map ChartDataPoint.hour
              (chartData hourKey localeCompare formatHourForDisplay da rt)) <->
      In h (map MarketPrice.datetime_beginning_ept da) \/
      In h (hourKeysOf hourKey rt)) /\
  NoDup (map ChartDataPoint.hour
           (chartData hourKey localeCompare formatHourForDisplay da rt)) /\
  StronglySorted (fun a b => (codeCompare a b <= 0)%Z)
    (map ChartDataPoint.hour
       (chartData hourKey localeCompare formatHourForDisplay da rt)).
Proof.
  rewrite chartData_hours. split; [| split].
  - intros h. rewrite array_sort_In, chartHours_In.
    now rewrite averageRTToHourly_hours_In.
  - eapply Permutation_NoDup.
    + symmetry. apply array_sort_perm.
    + apply chartHours_NoDup.
  - apply (array_sort_sorted (fun h : string => h) codeCompare
             (fun _ => True) (codeCompare_consistent _)).
    apply Forall_forall. auto.
Qed.

(** X24: for an hour that is both on the chart and in the clearing output
    computed from the same market data, the chart point and the clearing
    record show the same DA price and the same RT average, and the chart's
    spread is their difference when both are present and absent
    otherwise. *)
Theorem X24_chart_agrees_with_clearing
    (hourKey : string -> string) (localeCompare : string -> string -> Z)
    (formatHourForDisplay : string -> string)
    (bids : list Bid.t) (da rt : list MarketPrice.t)
    (c : ChartDataPoint.t) (r : HourlyClear.t) :
  In c (chartData hourKey localeCompare formatHourForDisplay da rt) ->
  In r (clearBids hourKey localeCompare bids da rt) ->
  ChartDataPoint.hour c = HourlyClear.hourStart r ->
  ChartDataPoint.daPrice c = HourlyClear.daPrice r /\
  ChartDataPoint.rtPrice c = HourlyClear.avgRtPrice r /\
  ChartDataPoint.spread c =
    match HourlyClear.daPrice r, HourlyClear.avgRtPrice r with
    | Some p, Some q => Some (PrimFloat.sub q p)
    | _, _ => None
    end.
Proof.
  intros Hc Hr Hh.
  apply chartData_In in Hc.
  apply (clearBids_record hourKey localeCompare) in Hr.
  destruct Hr as (_ & Hda & Hrt & _).
  rewrite Hda, Hrt, <- Hh, Hc. split; [| split]; reflexivity.
Qed.

Lemma X24_chart_agrees_with_clearing_witness :
  In (ChartDataPoint.mk hour08 hour08 (Some 55%float) (Some 60%float)
                        (Some 5%float))
     (chartData truncateToHour codeCompare (fun s => s)
                mockDAPrices mockRTPrices) /\
  In clear08
     (clearBids truncateToHour codeCompare mockBids mockDAPrices mockRTPrices) /\
  ChartDataPoint.daPrice
    (ChartDataPoint.mk hour08 hour08 (Some 55%float) (Some 60%float)
                       (Some 5%float)) =
  HourlyClear.daPrice clear08.
Proof.
  assert (Hc : In (ChartDataPoint.mk hour08 hour08 (Some 55%float)
                     (Some 60%float) (Some 5%float))
                  (chartData truncateToHour codeCompare (fun s => s)
                             mockDAPrices mockRTPrices))
    by (vm_compute; left; reflexivity).
  assert (Hr : In clear08
            (clearBids truncateToHour codeCompare mockBids mockDAPrices
                       mockRTPrices)) by (vm_compute; left; reflexivity).
  split; [exact Hc | split; [exact Hr |]].
  exact (proj1 (X24_chart_agrees_with_clearing truncateToHour codeCompare
                  (fun s => s) mockBids mockDAPrices mockRTPrices _ clear08
                  Hc Hr eq_refl)).
Defined.
